(** * route_intel: the time-window engine

    A shallow embedding of the clock-time functions of the flight search
    demo, and the properties its specification states about them:

    - [Engine] embeds [isOvernightFlight], [isValidTimeRange],
      [timeToMinutes], [isTimeInRange] and [isArrivalTimeInRange] of the UI
      components module;
    - [App] embeds the private [timeToMinutes] of app.js and the filter
      passes of [applyFilters];
    - [JS] holds the fragment of the language these functions run on:
      values, truthiness, exceptions, IEEE 754 binary64 numbers, the
      [Number] conversion of strings and [String.prototype.split];
    - [Airports] embeds the airport table and its lookup, search and
      display functions; [DataService] embeds [calculateDuration];
      [Sorting] the departure sort of [applySorting]; [Search] the airport
      checks of [handleSearch]; [Format] embeds [formatDuration]; [Str]
      holds the string methods they call.

    Numbers are the binary64 floats of the Standard Library's [SpecFloat]
    ([prec = 53], [emax = 1024]), so not-a-number and the infinities behave
    as they do in the source.  A string is a [String.string] whose characters
    stand for code units below 256. *)

From Stdlib Require Import ZArith List Bool Ascii String Lia PArith Zpower.
From Stdlib Require Import SpecFloat.
From Stdlib Require Import Permutation Sorted DecimalString.
Import ListNotations.

Local Open Scope Z_scope.

(* ================================================================== *)
(** * The language fragment *)
(* ================================================================== *)

Module JS.

(** ** Numbers: IEEE 754 binary64 *)

Definition prec : Z := 53.
Definition emax : Z := 1024.

Definition number : Type := spec_float.

Definition NaN : number := S754_nan.
Definition Infinity : number := S754_infinity false.

(** The number a mathematical integer rounds to. *)
Definition of_Z (z : Z) : number := binary_normalize prec emax z 0 false.

Definition mul (x y : number) : number := SFmul prec emax x y.
Definition add (x y : number) : number := SFadd prec emax x y.
Definition sub (x y : number) : number := SFsub prec emax x y.

(** [x < y], [x <= y], [x >= y]: false as soon as an operand is NaN. *)
Definition lt (x y : number) : bool := SFltb x y.
Definition le (x y : number) : bool := SFleb x y.
Definition ge (x y : number) : bool := SFleb y x.

Definition is_nan (x : number) : bool :=
  match x with S754_nan => true | _ => false end.

Definition is_zero (x : number) : bool :=
  match x with S754_zero _ => true | _ => false end.

(** ** Values and exceptions *)

Inductive value : Type :=
| VUndefined
| VNull
| VBool (b : bool)
| VNumber (n : number)
| VString (s : string).

Inductive result (A : Type) : Type :=
| Ok (a : A)
| Throw (msg : string).

Arguments Ok {A} a.
Arguments Throw {A} msg.

Definition bind {A B : Type} (r : result A) (k : A -> result B) : result B :=
  match r with
  | Ok a => k a
  | Throw msg => Throw msg
  end.

Notation "x <- r ;; k" := (bind r (fun x => k))
  (at level 61, r at next level, right associativity).

(** [!v] is [negb (truthy v)]. *)
Definition truthy (v : value) : bool :=
  match v with
  | VUndefined | VNull => false
  | VBool b => b
  | VNumber n => negb (is_nan n || is_zero n)
  | VString s => negb (String.eqb s "")
  end.

Definition is_string (v : value) : bool :=
  match v with VString _ => true | _ => false end.

(** ** [Number(string)] *)

Definition is_digit (c : ascii) : bool :=
  let n := N_of_ascii c in (48 <=? n)%N && (n <=? 57)%N.

Definition digit_val (c : ascii) : Z := Z.of_N (N_of_ascii c) - 48.

(** Value of a hexadecimal digit, if it is one. *)
Definition hex_val (c : ascii) : option Z :=
  let n := N_of_ascii c in
  if (48 <=? n)%N && (n <=? 57)%N then Some (Z.of_N n - 48)
  else if (65 <=? n)%N && (n <=? 70)%N then Some (Z.of_N n - 55)
  else if (97 <=? n)%N && (n <=? 102)%N then Some (Z.of_N n - 87)
  else None.

(** White space and line terminators among the code units below 256:
    TAB, LF, VT, FF, CR, SP and NBSP. *)
Definition is_space (c : ascii) : bool :=
  let n := N_of_ascii c in
  ((9 <=? n)%N && (n <=? 13)%N) || (n =? 32)%N || (n =? 160)%N.

Fixpoint trim_left (s : string) : string :=
  match s with
  | String c r => if is_space c then trim_left r else s
  | EmptyString => EmptyString
  end.

Fixpoint trim_right (s : string) : string :=
  match s with
  | String c r =>
      match trim_right r with
      | EmptyString => if is_space c then EmptyString else String c EmptyString
      | r' => String c r'
      end
  | EmptyString => EmptyString
  end.

Definition trim (s : string) : string := trim_right (trim_left s).

(** Splits off the longest prefix of decimal digits. *)
Fixpoint span_digits (s : string) : string * string :=
  match s with
  | String c r =>
      if is_digit c then let (d, t) := span_digits r in (String c d, t)
      else (EmptyString, s)
  | EmptyString => (EmptyString, EmptyString)
  end.

(** Value of a run of decimal digits, most significant first. *)
Fixpoint digits_acc (acc : Z) (s : string) : Z :=
  match s with
  | String c r => digits_acc (10 * acc + digit_val c) r
  | EmptyString => acc
  end.

Definition digits_value (s : string) : Z := digits_acc 0 s.

(** Value of a non-empty run of digits of the given radix; [None] when a
    character is not such a digit. *)
Fixpoint radix_acc (radix acc : Z) (s : string) : option Z :=
  match s with
  | String c r =>
      match hex_val c with
      | Some d => if d <? radix then radix_acc radix (radix * acc + d) r else None
      | None => None
      end
  | EmptyString => Some acc
  end.

Definition radix_literal (radix : Z) (s : string) : number :=
  match s with
  | EmptyString => NaN
  | _ => match radix_acc radix 0 s with
         | Some v => of_Z v
         | None => NaN
         end
  end.

(** The number nearest to [m * 10 ^ e10], ties to even, with sign [neg]. *)
Definition decimal_to_number (neg : bool) (m e10 : Z) : number :=
  if m =? 0 then S754_zero neg
  else if 0 <=? e10 then
    binary_normalize prec emax ((if neg then - m else m) * 10 ^ e10) 0 neg
  else
    let '(q, e, l) := SFdiv_core_binary prec emax m 0 (10 ^ (- e10)) 0 in
    binary_round_aux prec emax neg q e l.

(** The exponent part: empty, or [e]/[E], an optional sign and digits. *)
Definition exponent_part (s : string) : option Z :=
  match s with
  | EmptyString => Some 0
  | String c r =>
      if (Ascii.eqb c "e" || Ascii.eqb c "E")%bool then
        let '(neg, ds) :=
          match r with
          | String "+" t => (false, t)
          | String "-" t => (true, t)
          | _ => (false, r)
          end in
        match span_digits ds with
        | (String d0 d, EmptyString) =>
            let v := digits_value (String d0 d) in
            Some (if neg then - v else v)
        | _ => None
        end
      else None
  end.

(** An unsigned decimal literal: [Infinity], or digits with an optional
    fraction and exponent, at least one digit before the exponent. *)
Definition unsigned_decimal (neg : bool) (s : string) : number :=
  if String.eqb s "Infinity" then S754_infinity neg
  else
    let (ip, rest) := span_digits s in
    let (fp, rest') :=
      match rest with
      | String "." t => span_digits t
      | _ => (EmptyString, rest)
      end in
    match (ip ++ fp)%string with
    | EmptyString => NaN
    | ds =>
        match exponent_part rest' with
        | Some e =>
            decimal_to_number neg (digits_value ds) (e - Z.of_nat (String.length fp))
        | None => NaN
        end
    end.

Definition numeric_literal (s : string) : number :=
  match s with
  | String "0" (String c r) =>
      if (Ascii.eqb c "x" || Ascii.eqb c "X")%bool then radix_literal 16 r
      else if (Ascii.eqb c "o" || Ascii.eqb c "O")%bool then radix_literal 8 r
      else if (Ascii.eqb c "b" || Ascii.eqb c "B")%bool then radix_literal 2 r
      else unsigned_decimal false s
  | String "+" r => unsigned_decimal false r
  | String "-" r => unsigned_decimal true r
  | _ => unsigned_decimal false s
  end.

(** [Number(s)] for a string [s]: the empty or blank string is [+0], a
    numeric literal is its value, anything else is NaN. *)
Definition Number_ (s : string) : number :=
  match trim s with
  | EmptyString => S754_zero false
  | t => numeric_literal t
  end.

(** [ToNumber] on values, as the arithmetic operators and [isNaN] apply it. *)
Definition ToNumber (v : value) : number :=
  match v with
  | VUndefined => NaN
  | VNull => S754_zero false
  | VBool b => if b then of_Z 1 else S754_zero false
  | VNumber n => n
  | VString s => Number_ s
  end.

Definition isNaN (v : value) : bool := is_nan (ToNumber v).

(** ** [s.split(sep)] for a one-character separator: never empty. *)
Fixpoint split (sep : ascii) (s : string) : string * list string :=
  match s with
  | String c r =>
      let (h, t) := split sep r in
      if Ascii.eqb c sep then (EmptyString, h :: t) else (String c h, t)
  | EmptyString => (EmptyString, [])
  end.

Definition split_list (sep : ascii) (s : string) : list string :=
  let (h, t) := split sep s in h :: t.

(** [recv.split(':')] on a value: property access throws on [undefined]
    and [null], and only strings have the method. *)
Definition split_value (v : value) : result (list string) :=
  match v with
  | VString s => Ok (split_list ":" s)
  | VUndefined | VNull => Throw "TypeError: cannot read properties of undefined or null"
  | VBool _ | VNumber _ => Throw "TypeError: split is not a function"
  end.

(** Element [i] of an array of numbers; [undefined] past the end. *)
Definition element (a : list number) (i : nat) : value :=
  match nth_error a i with
  | Some n => VNumber n
  | None => VUndefined
  end.

End JS.

Import JS.
Local Open Scope string_scope.
Local Open Scope Z_scope.

(* ================================================================== *)
(** * The UI components module: the time-window engine *)
(* ================================================================== *)

Module Engine.

(** [isOvernightFlight(departureTime, arrivalTime)]: both strings are split
    and converted in place; the arrival is overnight when its total is
    strictly below the departure's. *)
Definition isOvernightFlight (departureTime arrivalTime : value) : result bool :=
  depParts <- split_value departureTime ;;
  let dep := map Number_ depParts in
  let depHours := element dep 0 in
  let depMinutes := element dep 1 in
  arrParts <- split_value arrivalTime ;;
  let arr := map Number_ arrParts in
  let arrHours := element arr 0 in
  let arrMinutes := element arr 1 in
  let depTotalMinutes := add (mul (ToNumber depHours) (of_Z 60)) (ToNumber depMinutes) in
  let arrTotalMinutes := add (mul (ToNumber arrHours) (of_Z 60)) (ToNumber arrMinutes) in
  Ok (lt arrTotalMinutes depTotalMinutes).

(** [timeToMinutes(time)]: [hours * 60 + minutes] of the first two
    colon-separated components, with no check on either. *)
Definition timeToMinutes (time : value) : result number :=
  parts <- split_value time ;;
  let nums := map Number_ parts in
  let hours := element nums 0 in
  let minutes := element nums 1 in
  Ok (add (mul (ToNumber hours) (of_Z 60)) (ToNumber minutes)).

(** [isValidTimeRange(startTime, endTime)]. *)
Definition isValidTimeRange (startTime endTime : value) : result bool :=
  if negb (truthy startTime) || negb (truthy endTime) then Ok true
  else
    start <- timeToMinutes startTime ;;
    end_ <- timeToMinutes endTime ;;
    Ok (ge end_ start).

(** [isTimeInRange(time, startTime, endTime, allowNextDay = false)]; the
    body never reads [allowNextDay]. *)
Definition isTimeInRange (time startTime endTime : value) (allowNextDay : bool)
  : result bool :=
  if negb (truthy time) || negb (truthy startTime) || negb (truthy endTime)
  then Ok true
  else
    timeMinutes <- timeToMinutes time ;;
    startMinutes <- timeToMinutes startTime ;;
    endMinutes <- timeToMinutes endTime ;;
    if le startMinutes endMinutes
    then Ok (ge timeMinutes startMinutes && le timeMinutes endMinutes)
    else Ok (ge timeMinutes startMinutes || le timeMinutes endMinutes).

(** [isArrivalTimeInRange(departureTime, arrivalTime, filterStart, filterEnd)]. *)
Definition isArrivalTimeInRange
  (departureTime arrivalTime filterStart filterEnd : value) : result bool :=
  if negb (truthy arrivalTime) || negb (truthy filterStart) || negb (truthy filterEnd)
  then Ok true
  else
    overnight <- isOvernightFlight departureTime arrivalTime ;;
    if overnight
    then isTimeInRange arrivalTime filterStart filterEnd true
    else isTimeInRange arrivalTime filterStart filterEnd false.

End Engine.

(* ================================================================== *)
(** * app.js: the sort key and the filter passes *)
(* ================================================================== *)

Module App.

(** The private [timeToMinutes(time)] of app.js, the key of the
    departure-time sort. *)
Definition timeToMinutes (time : value) : result number :=
  if negb (truthy time) || negb (is_string time) then Ok (of_Z 0)
  else
    parts <- split_value time ;;
    let nums := map Number_ parts in
    let hours := element nums 0 in
    let minutes := element nums 1 in
    if isNaN hours || isNaN minutes then Ok (of_Z 0)
    else Ok (add (mul (ToNumber hours) (of_Z 60)) (ToNumber minutes)).

(** The comparator of the departure sort: [aMinutes - bMinutes]. *)
Definition compareDeparture (a b : value) : result number :=
  aMinutes <- timeToMinutes a ;;
  bMinutes <- timeToMinutes b ;;
  Ok (sub aMinutes bMinutes).

(** A normalized schedule or offer, with the fields the filters read.
    [carrierCodes] is absent on schedules. *)
Record item : Type := {
  departureTime : value;
  arrivalTime : value;
  carrierCode : value;
  carrierCodes : option (list value)
}.

Inductive mode : Type := schedules | offers.

Record state : Type := {
  currentMode : mode;
  currentResults : list item;
  filteredResults : list item
}.

(** The filter controls: four time inputs and the United-only checkbox. *)
Record elements : Type := {
  depTimeStart : string;
  depTimeEnd : string;
  arrTimeStart : string;
  arrTimeEnd : string;
  unitedOnlyFilter : bool
}.

(** [array.filter(callback)] with a callback that may throw: elements are
    visited in order and the first exception ends the pass. *)
Fixpoint filter {A : Type} (p : A -> result bool) (l : list A) : result (list A) :=
  match l with
  | [] => Ok []
  | x :: r =>
      b <- p x ;;
      r' <- filter p r ;;
      Ok (if b then x :: r' else r')
  end.

(** [code === 'UA']. *)
Definition is_UA (v : value) : bool :=
  match v with VString s => String.eqb s "UA" | _ => false end.

Definition unitedItem (m : mode) (it : item) : result bool :=
  match m with
  | schedules => Ok (is_UA (carrierCode it))
  | offers =>
      match carrierCodes it with
      | Some codes => Ok (forallb is_UA codes)
      | None => Ok false
      end
  end.

(** The departure-time pass of [applyFilters]. *)
Definition filterDeparture (start end_ : string) (l : list item)
  : result (list item) :=
  if negb (String.eqb start "") && negb (String.eqb end_ "")
  then filter (fun it => Engine.isTimeInRange (departureTime it)
                           (VString start) (VString end_) false) l
  else Ok l.

(** The arrival-time pass of [applyFilters]. *)
Definition filterArrival (start end_ : string) (l : list item)
  : result (list item) :=
  if negb (String.eqb start "") && negb (String.eqb end_ "")
  then filter (fun it => Engine.isArrivalTimeInRange (departureTime it) (arrivalTime it)
                           (VString start) (VString end_)) l
  else Ok l.

Definition filterUnited (unitedOnly : bool) (m : mode) (l : list item)
  : result (list item) :=
  if unitedOnly then filter (unitedItem m) l else Ok l.

(** The three passes in the order [applyFilters] runs them. *)
Definition filterResults (el : elements) (m : mode) (l : list item)
  : result (list item) :=
  filtered <- filterDeparture (depTimeStart el) (depTimeEnd el) l ;;
  filtered <- filterArrival (arrTimeStart el) (arrTimeEnd el) filtered ;;
  filterUnited (unitedOnlyFilter el) m filtered.

(** [applyFilters()] on the shared state: nothing happens when there are no
    current results; otherwise the filtered copy is stored.  Rendering is
    left out. *)
Definition applyFilters (el : elements) (st : state) : result state :=
  match currentResults st with
  | [] => Ok st
  | _ =>
      filtered <- filterResults el (currentMode st) (currentResults st) ;;
      Ok {| currentMode := currentMode st;
            currentResults := currentResults st;
            filteredResults := filtered |}
  end.

End App.

(* ================================================================== *)
(** * Clock times as the specification reads them *)
(* ================================================================== *)

Module Clock.

(** A well-formed [HH:MM] string: two digits, a colon, two digits. *)
Definition wellFormed (s : string) : bool :=
  match s with
  | String h1 (String h2 (String c (String m1 (String m2 EmptyString)))) =>
      is_digit h1 && is_digit h2 && Ascii.eqb c ":" && is_digit m1 && is_digit m2
  | _ => false
  end.

Definition hourOf (s : string) : Z :=
  match s with
  | String h1 (String h2 _) => 10 * digit_val h1 + digit_val h2
  | _ => 0
  end.

Definition minuteOf (s : string) : Z :=
  match s with
  | String _ (String _ (String _ (String m1 (String m2 _)))) =>
      10 * digit_val m1 + digit_val m2
  | _ => 0
  end.

(** Minutes since midnight, read off the digits. *)
Definition minuteOfDay (s : string) : Z := hourOf s * 60 + minuteOf s.

(** A valid clock time: hour in [00,23], minute in [00,59]. *)
Definition valid (s : string) : bool :=
  wellFormed s && (hourOf s <=? 23) && (minuteOf s <=? 59).

(** Membership of a minute-of-day in a possibly wrapping closed range. *)
Definition inRange (t s e : Z) : bool :=
  if s <=? e then (s <=? t) && (t <=? e) else (s <=? t) || (t <=? e).

(** A run of decimal digits. *)
Fixpoint all_digits (s : string) : bool :=
  match s with
  | String c r => is_digit c && all_digits r
  | EmptyString => true
  end.

(** A time string with a non-numeric hour or minute component: the test
    [isNaN(hours) || isNaN(minutes)] on its first two components; a missing
    minute component counts. *)
Definition nonNumeric (s : string) : bool :=
  let nums := map Number_ (split_list ":" s) in
  isNaN (element nums 0) || isNaN (element nums 1).

(** An empty or absent input: the empty string, [undefined] or [null]. *)
Definition absent (v : value) : bool :=
  match v with
  | VUndefined | VNull => true
  | VString s => String.eqb s ""
  | _ => false
  end.

End Clock.

(* ================================================================== *)
(** * Devices of the proofs *)
(* ================================================================== *)

(** Integers below [2 ^ 53] in magnitude are binary64 numbers; [canon] is
    the normal form [SpecFloat] gives them: a 53-bit mantissa and the
    exponent that scales it back. *)
Module Binary64.

(** Number of binary digits. *)
Definition bitlen (p : positive) : Z := Zpos (digits2_pos p).

Definition canon (s : bool) (p : positive) : number :=
  S754_finite s (Z.to_pos (Zpos p * 2 ^ (53 - bitlen p))) (bitlen p - 53).

End Binary64.

(** The passes of [applyFilters] as plain filters: the guard on the bounds
    is folded into the callback. *)
Module Pass.

(** A pass keeps an element exactly when its callback answers [true]. *)
Definition accepts {A : Type} (p : A -> result bool) (x : A) : Prop :=
  p x = Ok true.

Definition departureCallback (start end_ : string) (it : App.item) : result bool :=
  if negb (String.eqb start "") && negb (String.eqb end_ "")
  then Engine.isTimeInRange (App.departureTime it) (VString start) (VString end_) false
  else Ok true.

Definition arrivalCallback (start end_ : string) (it : App.item) : result bool :=
  if negb (String.eqb start "") && negb (String.eqb end_ "")
  then Engine.isArrivalTimeInRange (App.departureTime it) (App.arrivalTime it)
         (VString start) (VString end_)
  else Ok true.

Definition unitedCallback (unitedOnly : bool) (m : App.mode) (it : App.item)
  : result bool :=
  if unitedOnly then App.unitedItem m it else Ok true.

End Pass.

(** A schedule record with the given departure and arrival. *)
Definition flight (dep arr : string) : App.item :=
  {| App.departureTime := VString dep;
     App.arrivalTime := VString arr;
     App.carrierCode := VString "UA";
     App.carrierCodes := None |}.

(* ================================================================== *)
(** * String methods *)
(* ================================================================== *)

Module Str.

(** [c.toUpperCase()] for one code unit below 256.  Sharp s becomes two
    letters.  The micro sign and y with diaeresis have their capitals
    beyond 255: in an upper-cased string their codes stand for those
    capitals, which no other character produces, so the length of an
    upper-cased string and its comparison with another are those of the
    source. *)
Definition upper_char (c : ascii) : string :=
  let n := N_of_ascii c in
  if ((97 <=? n) && (n <=? 122))%N then String (ascii_of_N (n - 32)) ""
  else if (n =? 223)%N then "SS"
  else if ((224 <=? n) && (n <=? 254) && negb (n =? 247))%N
       then String (ascii_of_N (n - 32)) ""
  else String c "".

Fixpoint toUpperCase (s : string) : string :=
  match s with
  | String c r => (upper_char c ++ toUpperCase r)%string
  | EmptyString => EmptyString
  end.

(** [c.toLowerCase()] for one code unit below 256. *)
Definition lower_char (c : ascii) : ascii :=
  let n := N_of_ascii c in
  if ((65 <=? n) && (n <=? 90))%N then ascii_of_N (n + 32)
  else if ((192 <=? n) && (n <=? 222) && negb (n =? 215))%N then ascii_of_N (n + 32)
  else c.

Fixpoint toLowerCase (s : string) : string :=
  match s with
  | String c r => String (lower_char c) (toLowerCase r)
  | EmptyString => EmptyString
  end.

(** [s.includes(sub)]: [sub] occurs in [s] at some position. *)
Fixpoint includes (s sub : string) : bool :=
  String.prefix sub s
  || match s with
     | String _ r => includes r sub
     | EmptyString => false
     end.

End Str.

(* ================================================================== *)
(** * airports.js *)
(* ================================================================== *)

Module Airports.

Record airport : Type := {
  iata : string;
  name : string;
  city : string;
  state : string;
  country : string;
  lat : number;
  lon : number
}.

(** The table, in the order of the object literal, which is the order
    [Object.entries] and [Object.keys] enumerate. *)
Definition AIRPORTS : list (string * airport) := [
  ("EWR", {| iata := "EWR"; name := "Newark Liberty International Airport";
           city := "Newark"; state := "NJ"; country := "USA";
           lat := Number_ "40.6925"; lon := Number_ "-74.1687" |});
  ("SFO", {| iata := "SFO"; name := "San Francisco International Airport";
           city := "San Francisco"; state := "CA"; country := "USA";
           lat := Number_ "37.6213"; lon := Number_ "-122.3790" |});
  ("ORD", {| iata := "ORD"; name := "O'Hare International Airport";
           city := "Chicago"; state := "IL"; country := "USA";
           lat := Number_ "41.9742"; lon := Number_ "-87.9073" |});
  ("IAH", {| iata := "IAH"; name := "George Bush Intercontinental Airport";
           city := "Houston"; state := "TX"; country := "USA";
           lat := Number_ "29.9902"; lon := Number_ "-95.3368" |});
  ("DEN", {| iata := "DEN"; name := "Denver International Airport";
           city := "Denver"; state := "CO"; country := "USA";
           lat := Number_ "39.8561"; lon := Number_ "-104.6737" |});
  ("IAD", {| iata := "IAD"; name := "Washington Dulles International Airport";
           city := "Washington"; state := "DC"; country := "USA";
           lat := Number_ "38.9531"; lon := Number_ "-77.4565" |});
  ("LAX", {| iata := "LAX"; name := "Los Angeles International Airport";
           city := "Los Angeles"; state := "CA"; country := "USA";
           lat := Number_ "33.9416"; lon := Number_ "-118.4085" |});
  ("JFK", {| iata := "JFK"; name := "John F. Kennedy International Airport";
           city := "New York"; state := "NY"; country := "USA";
           lat := Number_ "40.6413"; lon := Number_ "-73.7781" |});
  ("ATL", {| iata := "ATL"; name := "Hartsfield-Jackson Atlanta International Airport";
           city := "Atlanta"; state := "GA"; country := "USA";
           lat := Number_ "33.6407"; lon := Number_ "-84.4277" |});
  ("BOS", {| iata := "BOS"; name := "Logan International Airport";
           city := "Boston"; state := "MA"; country := "USA";
           lat := Number_ "42.3656"; lon := Number_ "-71.0096" |});
  ("SEA", {| iata := "SEA"; name := "Seattle-Tacoma International Airport";
           city := "Seattle"; state := "WA"; country := "USA";
           lat := Number_ "47.4502"; lon := Number_ "-122.3088" |});
  ("MIA", {| iata := "MIA"; name := "Miami International Airport";
           city := "Miami"; state := "FL"; country := "USA";
           lat := Number_ "25.7959"; lon := Number_ "-80.2870" |});
  ("MCO", {| iata := "MCO"; name := "Orlando International Airport";
           city := "Orlando"; state := "FL"; country := "USA";
           lat := Number_ "28.4312"; lon := Number_ "-81.3081" |});
  ("PHX", {| iata := "PHX"; name := "Phoenix Sky Harbor International Airport";
           city := "Phoenix"; state := "AZ"; country := "USA";
           lat := Number_ "33.4352"; lon := Number_ "-112.0101" |});
  ("LAS", {| iata := "LAS"; name := "Harry Reid International Airport";
           city := "Las Vegas"; state := "NV"; country := "USA";
           lat := Number_ "36.0840"; lon := Number_ "-115.1537" |});
  ("DFW", {| iata := "DFW"; name := "Dallas/Fort Worth International Airport";
           city := "Dallas"; state := "TX"; country := "USA";
           lat := Number_ "32.8998"; lon := Number_ "-97.0403" |});
  ("MSP", {| iata := "MSP"; name := "Minneapolis-St Paul International Airport";
           city := "Minneapolis"; state := "MN"; country := "USA";
           lat := Number_ "44.8848"; lon := Number_ "-93.2223" |});
  ("DTW", {| iata := "DTW"; name := "Detroit Metropolitan Wayne County Airport";
           city := "Detroit"; state := "MI"; country := "USA";
           lat := Number_ "42.2162"; lon := Number_ "-83.3554" |});
  ("PHL", {| iata := "PHL"; name := "Philadelphia International Airport";
           city := "Philadelphia"; state := "PA"; country := "USA";
           lat := Number_ "39.8729"; lon := Number_ "-75.2437" |});
  ("CLT", {| iata := "CLT"; name := "Charlotte Douglas International Airport";
           city := "Charlotte"; state := "NC"; country := "USA";
           lat := Number_ "35.2144"; lon := Number_ "-80.9473" |});
  ("SAN", {| iata := "SAN"; name := "San Diego International Airport";
           city := "San Diego"; state := "CA"; country := "USA";
           lat := Number_ "32.7338"; lon := Number_ "-117.1933" |});
  ("PDX", {| iata := "PDX"; name := "Portland International Airport";
           city := "Portland"; state := "OR"; country := "USA";
           lat := Number_ "45.5898"; lon := Number_ "-122.5951" |});
  ("SLC", {| iata := "SLC"; name := "Salt Lake City International Airport";
           city := "Salt Lake City"; state := "UT"; country := "USA";
           lat := Number_ "40.7899"; lon := Number_ "-111.9791" |});
  ("AUS", {| iata := "AUS"; name := "Austin-Bergstrom International Airport";
           city := "Austin"; state := "TX"; country := "USA";
           lat := Number_ "30.1945"; lon := Number_ "-97.6699" |});
  ("STL", {| iata := "STL"; name := "St. Louis Lambert International Airport";
           city := "St. Louis"; state := "MO"; country := "USA";
           lat := Number_ "38.7499"; lon := Number_ "-90.3697" |})
].

(** [AIRPORTS[code]]: [None] is [undefined].  The properties the object
    inherits all have a lower-case letter in their names and the codes
    looked up are upper-cased, so only the table's own keys can match. *)
Fixpoint lookup (code : string) (table : list (string * airport)) : option airport :=
  match table with
  | (k, a) :: r => if String.eqb k code then Some a else lookup code r
  | [] => None
  end.

(** [getAirport(iata)]: [None] is [null]. *)
Definition getAirport (iata : value) : option airport :=
  if negb (truthy iata) || negb (is_string iata) then None
  else
    match iata with
    | VString s =>
        let code := Str.toUpperCase (trim s) in
        lookup code AIRPORTS
    | _ => None
    end.

(** One turn of the loop of [searchAirports]. *)
Definition matches (searchTerm : string) (entry : string * airport) : bool :=
  let (iata, airport) := entry in
  Str.includes (Str.toLowerCase iata) searchTerm
  || Str.includes (Str.toLowerCase (name airport)) searchTerm
  || Str.includes (Str.toLowerCase (city airport)) searchTerm
  || Str.includes (Str.toLowerCase (state airport)) searchTerm.

(** [searchAirports(query)]. *)
Definition searchAirports (query : value) : list airport :=
  if negb (truthy query) || negb (is_string query) then []
  else
    match query with
    | VString s =>
        let searchTerm := trim (Str.toLowerCase s) in
        map snd (List.filter (matches searchTerm) AIRPORTS)
    | _ => []
    end.

(** [isValidAirport(iata)]. *)
Definition isValidAirport (iata : value) : bool :=
  match getAirport iata with
  | Some _ => true
  | None => false
  end.

(** [getAllAirportCodes()]. *)
Definition getAllAirportCodes : list string := map fst AIRPORTS.

(** [formatAirportDisplay(iata)]: the argument itself when no airport is
    found. *)
Definition formatAirportDisplay (iata : value) : value :=
  match getAirport iata with
  | None => iata
  | Some airport =>
      VString (Airports.iata airport ++ " - " ++ city airport ++ ", " ++ state airport)
  end.

End Airports.

(* ================================================================== *)
(** * dataService.js: durations *)
(* ================================================================== *)

Module DataService.

(** [calculateDuration(departureTime, arrivalTime)]. *)
Definition calculateDuration (departureTime arrivalTime : value) : result number :=
  depParts <- split_value departureTime ;;
  let dep := map Number_ depParts in
  let depHours := element dep 0 in
  let depMinutes := element dep 1 in
  arrParts <- split_value arrivalTime ;;
  let arr := map Number_ arrParts in
  let arrHours := element arr 0 in
  let arrMinutes := element arr 1 in
  let depTotalMinutes := add (mul (ToNumber depHours) (of_Z 60)) (ToNumber depMinutes) in
  let arrTotalMinutes := add (mul (ToNumber arrHours) (of_Z 60)) (ToNumber arrMinutes) in
  let duration := sub arrTotalMinutes depTotalMinutes in
  if lt duration (of_Z 0)
  then Ok (add duration (mul (of_Z 24) (of_Z 60)))
  else Ok duration.

End DataService.

(* ================================================================== *)
(** * app.js: the departure sort and the airport checks of a search *)
(* ================================================================== *)

Module Sorting.

(** [array.sort(comparefn)].  The sort of the language is stable, and with
    a comparator that is consistent on the array every implementation
    returns the one stable ordering, which this insertion computes: [x]
    moves past [y] exactly when [comparefn(x, y) > 0].  With an
    inconsistent comparator the language leaves the order open. *)
Fixpoint insert {A : Type} (comparefn : A -> A -> result number) (x : A) (l : list A)
  : result (list A) :=
  match l with
  | [] => Ok [x]
  | y :: r =>
      v <- comparefn x y ;;
      if lt (of_Z 0) v
      then r' <- insert comparefn x r ;; Ok (y :: r')
      else Ok (x :: y :: r)
  end.

Fixpoint sort {A : Type} (comparefn : A -> A -> result number) (l : list A)
  : result (list A) :=
  match l with
  | [] => Ok []
  | x :: r => r' <- sort comparefn r ;; insert comparefn x r'
  end.

(** The ['departure'] case of [applySorting]. *)
Definition sortByDeparture (l : list App.item) : result (list App.item) :=
  sort (fun a b => App.compareDeparture (App.departureTime a) (App.departureTime b)) l.

End Sorting.

Module Search.

(** The checks of [handleSearch] on the two airport inputs, up to the
    check of the date: the message shown when one fails, [None] when the
    handler goes on to the date. *)
Definition checkAirports (currentMode : App.mode) (originValue destinationValue : string)
  : option string :=
  let origin := Str.toUpperCase (trim originValue) in
  let destination := Str.toUpperCase (trim destinationValue) in
  if String.eqb origin "" then
    Some "Please enter an origin airport."
  else if negb (Nat.eqb (String.length origin) 3) then
    Some "Origin airport code must be 3 letters."
  else if negb (Airports.isValidAirport (VString origin)) then
    Some ("Invalid origin airport code: " ++ origin
          ++ ". Please check the code and try again.")
  else if match currentMode with App.offers => true | App.schedules => false end
          && String.eqb destination "" then
    Some "Destination is required for Offers mode."
  else if negb (String.eqb destination "")
          && negb (Nat.eqb (String.length destination) 3) then
    Some "Destination airport code must be 3 letters."
  else if negb (String.eqb destination "")
          && negb (Airports.isValidAirport (VString destination)) then
    Some ("Invalid destination airport code: " ++ destination
          ++ ". Please check the code and try again.")
  else if negb (String.eqb origin "") && negb (String.eqb destination "")
          && String.eqb origin destination then
    Some "Origin and destination cannot be the same."
  else None.

End Search.

(* ================================================================== *)
(** * The UI components module: durations on a card *)
(* ================================================================== *)

Module Format.

(** [x / y]. *)
Definition div (x y : number) : number := SFdiv prec emax x y.

(** [Math.floor(x)]: exact, the integer part of the mantissa. *)
Definition floor (x : number) : number :=
  match x with
  | S754_finite s m e =>
      if 0 <=? e then x
      else
        let d := 2 ^ (- e) in
        let q := Zpos m / d in
        if s then
          if Zpos m mod d =? 0
          then binary_normalize prec emax (- q) 0 true
          else binary_normalize prec emax (- (q + 1)) 0 true
        else binary_normalize prec emax q 0 false
  | _ => x
  end.

(** [n % d]: the exact remainder of the truncated division, with the sign
    of the dividend. *)
Definition rem (n d : number) : number :=
  match n, d with
  | S754_nan, _ | _, S754_nan => NaN
  | S754_infinity _, _ => NaN
  | _, S754_zero _ => NaN
  | _, S754_infinity _ => n
  | S754_zero _, _ => n
  | S754_finite sn mn en, S754_finite _ md ed =>
      let e := Z.min en ed in
      let r := (Zpos mn * 2 ^ (en - e)) mod (Zpos md * 2 ^ (ed - e)) in
      if r =? 0 then S754_zero sn
      else binary_normalize prec emax (if sn then - r else r) e sn
  end.

Section NumberToString.

(** The conversion of a number to a string, which a template applies. *)
Variable toString : number -> string.

(** [formatDuration(minutes)]. *)
Definition formatDuration (minutes : value) : string :=
  if negb (truthy minutes) || isNaN minutes then "N/A"
  else
    let hours := floor (div (ToNumber minutes) (of_Z 60)) in
    let mins := rem (ToNumber minutes) (of_Z 60) in
    if is_zero hours then toString mins ++ "m"
    else if is_zero mins then toString hours ++ "h"
    else toString hours ++ "h " ++ toString mins ++ "m".

End NumberToString.

End Format.

Import Clock Binary64 Pass.

(* ================================================================== *)
(** * More devices of the proofs *)
(* ================================================================== *)

Module Device.

(** ** Filter passes *)

(** The callback answered [true], without throwing. *)
Definition okTrue (r : result bool) : bool :=
  match r with Ok true => true | _ => false end.

(** The record is accepted by the three passes of [applyFilters]. *)
Definition kept (el : App.elements) (m : App.mode) (it : App.item) : bool :=
  okTrue (departureCallback (App.depTimeStart el) (App.depTimeEnd el) it)
  && okTrue (arrivalCallback (App.arrTimeStart el) (App.arrTimeEnd el) it)
  && okTrue (unitedCallback (App.unitedOnlyFilter el) m it).

(** The departure is a string, the arrival a string or absent. *)
Definition typedTimes (it : App.item) : bool :=
  is_string (App.departureTime it)
  && (is_string (App.arrivalTime it) || absent (App.arrivalTime it)).

(** ** The departure sort *)

(** A departure the sort key is plain on: a well-formed time, or one the
    [timeToMinutes] of app.js maps to 0. *)
Definition plainDeparture (v : value) : bool :=
  match v with
  | VString s => String.eqb s "" || wellFormed s || nonNumeric s
  | _ => true
  end.

Definition sortKey (v : value) : Z :=
  match v with
  | VString s => if wellFormed s then minuteOfDay s else 0
  | _ => 0
  end.

Definition departureKey (it : App.item) : Z := sortKey (App.departureTime it).

Definition plainItem (it : App.item) : bool := plainDeparture (App.departureTime it).

Definition keyLe (a b : App.item) : Prop := departureKey a <= departureKey b.

(** The sort on integer keys. *)
Fixpoint insertByKey (x : App.item) (l : list App.item) : list App.item :=
  match l with
  | [] => [x]
  | y :: r =>
      if departureKey y <? departureKey x then y :: insertByKey x r else x :: y :: r
  end.

Fixpoint sortByKey (l : list App.item) : list App.item :=
  match l with
  | [] => []
  | x :: r => insertByKey x (sortByKey r)
  end.

(** ** Strings *)

Definition sharp_s : ascii := ascii_of_N 223.


(** Two S in a row. *)
Fixpoint has_SS (s : string) : bool :=
  match s with
  | String c r =>
      (Ascii.eqb c "S" && match r with
                          | String d _ => Ascii.eqb d "S"
                          | EmptyString => false
                          end)
      || has_SS r
  | EmptyString => false
  end.

(** No white space at the start; none at the end. *)
Definition headOk (s : string) : bool :=
  match s with
  | String c _ => negb (is_space c)
  | EmptyString => true
  end.

Fixpoint lastOk (s : string) : bool :=
  match s with
  | String c EmptyString => negb (is_space c)
  | String _ r => lastOk r
  | EmptyString => true
  end.

(** White space only. *)
Fixpoint all_space (s : string) : bool :=
  match s with
  | String c r => is_space c && all_space r
  | EmptyString => true
  end.

(** What the keys of the airport table have in common: each is the [iata]
    of its airport, has three characters, is its own trimmed upper-case
    form and has no two S in a row. *)
Definition keyOk (entry : string * Airports.airport) : bool :=
  let (k, a) := entry in
  String.eqb (Airports.iata a) k
  && Nat.eqb (String.length k) 3
  && String.eqb (Str.toUpperCase (trim k)) k
  && negb (has_SS k).

(** ** Numbers as text *)

(** Decimal digits of a whole number, with a minus sign when negative. *)
Definition decimal (z : Z) : string := NilZero.string_of_int (Z.to_int z).

(** Structural equality of numbers (it tells [+0] from [-0]). *)
Definition same_number (x y : number) : bool :=
  match x, y with
  | S754_zero a, S754_zero b => Bool.eqb a b
  | S754_infinity a, S754_infinity b => Bool.eqb a b
  | S754_nan, S754_nan => true
  | S754_finite a m e, S754_finite b n f => Bool.eqb a b && Pos.eqb m n && Z.eqb e f
  | _, _ => false
  end.

(** [f] holds on [start], [start + 1], ... for [fuel] numbers. *)
Fixpoint holds_from (fuel : nat) (start : Z) (f : Z -> bool) : bool :=
  match fuel with
  | O => true
  | S k => f start && holds_from k (start + 1) f
  end.

(** The hours and minutes [formatDuration] computes for [n] are the
    quotient and the remainder of [n] by 60. *)
Definition partsExact (n : Z) : bool :=
  same_number (Format.floor (Format.div (of_Z n) (of_Z 60))) (of_Z (n / 60))
  && same_number (Format.rem (of_Z n) (of_Z 60)) (of_Z (n mod 60)).

(** The whole number a number is, if it is one. *)
Definition whole (x : number) : option Z :=
  match x with
  | S754_zero _ => Some 0
  | S754_finite s m e =>
      if 0 <=? e then Some ((if s then - Zpos m else Zpos m) * 2 ^ e)
      else if Zpos m mod 2 ^ (- e) =? 0
           then Some ((if s then - Zpos m else Zpos m) / 2 ^ (- e))
           else None
  | _ => None
  end.

(** A conversion to text that is right on whole numbers, for examples. *)
Definition wholeText (x : number) : string :=
  match whole x with
  | Some z => decimal z
  | None => "?"
  end.

End Device.

Import Device.

(* ================================================================== *)
(** * Integers as binary64 numbers *)
(* ================================================================== *)

Lemma bitlen_log2 p : bitlen p = Z.log2 (Zpos p) + 1.
Proof.
  unfold bitlen. induction p; simpl.
  - destruct p; simpl in *; lia.
  - destruct p; simpl in *; lia.
  - reflexivity.
Qed.

Lemma bitlen_pos p : 0 < bitlen p.
Proof. unfold bitlen; lia. Qed.

Lemma bitlen_bound p : 2 ^ (bitlen p - 1) <= Zpos p < 2 ^ bitlen p.
Proof.
  rewrite bitlen_log2. replace (Z.log2 (Z.pos p) + 1 - 1) with (Z.log2 (Z.pos p)) by lia.
  apply Z.log2_spec. lia.
Qed.

Lemma bitlen_unique p d : 2 ^ (d - 1) <= Zpos p < 2 ^ d -> bitlen p = d.
Proof.
  intros H. rewrite bitlen_log2.
  assert (0 <= d - 1).
  { destruct (Z_lt_le_dec (d - 1) 0) as [Hn|]; [|assumption].
    destruct H as [_ H]. destruct (Z_lt_le_dec d 0).
    - rewrite Z.pow_neg_r in H by assumption. lia.
    - assert (d = 0) by lia. subst. simpl in H. lia. }
  assert (Z.log2 (Zpos p) = d - 1); [|lia].
  apply Z.log2_unique; [assumption|]. replace (Z.succ (d - 1)) with d by lia. assumption.
Qed.

Lemma bitlen_shift p n q : 0 <= n -> Zpos q = Zpos p * 2 ^ n -> bitlen q = bitlen p + n.
Proof.
  intros Hn Hq. apply bitlen_unique. rewrite Hq.
  pose proof (bitlen_bound p) as [Hl Hu]. pose proof (bitlen_pos p).
  replace (bitlen p + n - 1) with ((bitlen p - 1) + n) by lia.
  rewrite !Z.pow_add_r by lia.
  assert (0 < 2 ^ n) by (apply Z.pow_pos_nonneg; lia).
  split; nia.
Qed.

(** SpecFloat's own iterator, as iteration over nat. *)
Lemma iter_pos_nat {A} (f : A -> A) p x :
  iter_pos f p x = Nat.iter (Pos.to_nat p) f x.
Proof.
  revert x. induction p; intros x.
  - rewrite Pos2Nat.inj_xI. cbn [iter_pos]. rewrite !IHp.
    replace (S (2 * Pos.to_nat p))%nat with (Pos.to_nat p + (Pos.to_nat p + 1))%nat by lia.
    rewrite !Nat.iter_add. simpl. reflexivity.
  - rewrite Pos2Nat.inj_xO. cbn [iter_pos]. rewrite !IHp.
    replace (2 * Pos.to_nat p)%nat with (Pos.to_nat p + Pos.to_nat p)%nat by lia.
    rewrite Nat.iter_add. reflexivity.
  - reflexivity.
Qed.

Lemma shr_1_exact_nat n K M :
  Zpos M = Zpos K * 2 ^ Z.of_nat n ->
  Nat.iter n shr_1 {| shr_m := Zpos M; shr_r := false; shr_s := false |}
  = {| shr_m := Zpos K; shr_r := false; shr_s := false |}.
Proof.
  revert M. induction n; intros M HM.
  - simpl in *. f_equal. lia.
  - rewrite Nat.iter_succ_r.
    rewrite Nat2Z.inj_succ, Z.pow_succ_r in HM by lia.
    destruct M as [M|M|]; try lia.
    simpl. apply IHn. lia.
Qed.

Lemma shr_exact K M e n :
  0 <= n -> Zpos M = Zpos K * 2 ^ n ->
  shr {| shr_m := Zpos M; shr_r := false; shr_s := false |} e n
  = ({| shr_m := Zpos K; shr_r := false; shr_s := false |}, e + n).
Proof.
  intros Hn HM. destruct n as [|n|n]; try lia.
  - simpl in *. rewrite Z.add_0_r. do 2 f_equal. lia.
  - unfold shr. rewrite iter_pos_nat. f_equal.
    apply shr_1_exact_nat. rewrite positive_nat_Z. assumption.
Qed.

Lemma fexp_small d : -1021 <= d <= 1024 -> fexp prec emax d = d - 53.
Proof. unfold fexp, emin, prec, emax. lia. Qed.

(** Rounding a mantissa that is a 53-digit number times a power of two. *)
Lemma binary_round_aux_exact s K M e n :
  0 <= n -> Zpos M = Zpos K * 2 ^ n -> bitlen K = 53 ->
  -1074 <= e + n <= 971 ->
  binary_round_aux prec emax s (Zpos M) e loc_Exact = S754_finite s K (e + n).
Proof.
  intros Hn HM HK He.
  assert (HDM : bitlen M = 53 + n) by (rewrite <- HK; eapply bitlen_shift; eauto).
  unfold binary_round_aux, shr_fexp.
  cbn [shr_record_of_loc Zdigits2]. fold (bitlen M). rewrite HDM.
  rewrite fexp_small by lia.
  replace (53 + n + e - 53 - e) with n by lia.
  rewrite (shr_exact K M e n) by assumption.
  cbn [shr_m loc_of_shr_record round_nearest_even shr_record_of_loc Zdigits2].
  fold (bitlen K). rewrite HK. rewrite fexp_small by lia.
  replace (53 + (e + n) - 53 - (e + n)) with 0 by lia.
  cbn [shr shr_m].
  replace (e + n <=? emax - prec) with true; [reflexivity|].
  symmetry. apply Z.leb_le. unfold emax, prec. lia.
Qed.

Lemma canon_mantissa p :
  bitlen p <= 53 ->
  Zpos (Z.to_pos (Zpos p * 2 ^ (53 - bitlen p))) = Zpos p * 2 ^ (53 - bitlen p).
Proof.
  intros H. apply Z2Pos.id.
  assert (0 < 2 ^ (53 - bitlen p)) by (apply Z.pow_pos_nonneg; lia). lia.
Qed.

Lemma canon_digits p : bitlen p <= 53 -> bitlen (Z.to_pos (Zpos p * 2 ^ (53 - bitlen p))) = 53.
Proof.
  intros H. rewrite (bitlen_shift p (53 - bitlen p)); [lia|lia|].
  apply canon_mantissa; assumption.
Qed.

Lemma pos_iter_xO p d : Zpos (Pos.iter xO p d) = Zpos p * 2 ^ Zpos d.
Proof.
  change (Pos.iter xO p d) with (shift_pos d p).
  rewrite shift_pos_correct. change (Z.pow_pos 2 d) with (2 ^ Zpos d). lia.
Qed.

(** Rounding [M * 2 ^ e], an integer [p] of at most 53 digits in disguise. *)
Lemma binary_round_exact s M e p :
  e <= 0 -> Zpos M = Zpos p * 2 ^ (- e) -> bitlen p <= 53 ->
  binary_round prec emax s M e = canon s p.
Proof.
  intros He HM Hp. pose proof (bitlen_pos p) as Hpos.
  assert (HDM : bitlen M = bitlen p + - e) by (eapply bitlen_shift; eauto; lia).
  unfold binary_round. fold (bitlen M). rewrite HDM.
  rewrite fexp_small by lia.
  replace (bitlen p + - e + e - 53) with (bitlen p - 53) by lia.
  unfold shl_align, canon.
  destruct (bitlen p - 53 - e) as [|d|d] eqn:Hd.
  - rewrite (binary_round_aux_exact s (Z.to_pos (Zpos p * 2 ^ (53 - bitlen p))) M e 0).
    + f_equal. lia.
    + lia.
    + rewrite canon_mantissa by assumption. rewrite HM.
      replace (- e) with (53 - bitlen p) by lia. simpl. lia.
    + apply canon_digits; assumption.
    + lia.
  - rewrite (binary_round_aux_exact s (Z.to_pos (Zpos p * 2 ^ (53 - bitlen p))) M e (Zpos d)).
    + f_equal. lia.
    + lia.
    + rewrite canon_mantissa by assumption. rewrite HM.
      rewrite <- Z.mul_assoc, <- Z.pow_add_r by lia. do 2 f_equal. lia.
    + apply canon_digits; assumption.
    + lia.
  - rewrite (binary_round_aux_exact s (Z.to_pos (Zpos p * 2 ^ (53 - bitlen p)))
               (Pos.iter xO M d) (bitlen p - 53) 0).
    + f_equal. lia.
    + lia.
    + rewrite canon_mantissa by assumption. rewrite pos_iter_xO, HM.
      rewrite <- Z.mul_assoc, <- Z.pow_add_r by lia.
      rewrite Z.pow_0_r, Z.mul_1_r. do 2 f_equal. lia.
    + apply canon_digits; assumption.
    + lia.
Qed.

Lemma bitlen_le_53 p : Zpos p < 2 ^ 53 <-> bitlen p <= 53.
Proof.
  pose proof (bitlen_bound p) as [Hl Hu]. pose proof (bitlen_pos p) as Hp. split; intros H.
  - destruct (Z_le_gt_dec (bitlen p) 53) as [|Hgt]; [assumption|exfalso].
    assert (2 ^ 53 <= 2 ^ (bitlen p - 1)) by (apply Z.pow_le_mono_r; lia). lia.
  - assert (2 ^ bitlen p <= 2 ^ 53) by (apply Z.pow_le_mono_r; lia). lia.
Qed.

Lemma of_Z_pos p : Zpos p < 2 ^ 53 -> of_Z (Zpos p) = canon false p.
Proof.
  intros H. unfold of_Z, binary_normalize.
  apply binary_round_exact; [lia | simpl; lia | apply bitlen_le_53; assumption].
Qed.

Lemma of_Z_neg p : Zpos p < 2 ^ 53 -> of_Z (Zneg p) = canon true p.
Proof.
  intros H. unfold of_Z, binary_normalize.
  apply binary_round_exact; [lia | simpl; lia | apply bitlen_le_53; assumption].
Qed.


Lemma bitlen_mono p q : (p <= q)%positive -> bitlen p <= bitlen q.
Proof.
  intros H. rewrite !bitlen_log2. apply Z.add_le_mono_r. apply Z.log2_le_mono. lia.
Qed.

Lemma pow2_split a b c n :
  0 <= a -> 0 <= b -> 0 <= c -> 0 <= n -> a + b = c + n ->
  2 ^ a * 2 ^ b = 2 ^ c * 2 ^ n.
Proof. intros. rewrite <- !Z.pow_add_r by lia. f_equal. lia. Qed.

Lemma mul_canon sx sy p q :
  bitlen (p * q) <= 53 ->
  mul (canon sx p) (canon sy q) = canon (xorb sx sy) (p * q).
Proof.
  intros H.
  assert (Hp : bitlen p <= bitlen (p * q)) by (apply bitlen_mono; nia).
  assert (Hq : bitlen q <= bitlen (p * q)) by (apply bitlen_mono; nia).
  pose proof (bitlen_pos p). pose proof (bitlen_pos q).
  unfold mul, canon, SFmul.
  rewrite (binary_round_aux_exact _ (Z.to_pos (Zpos (p * q) * 2 ^ (53 - bitlen (p * q)))) _ _
             (53 - bitlen p - bitlen q + bitlen (p * q))).
  - f_equal. lia.
  - lia.
  - rewrite Pos2Z.inj_mul, !canon_mantissa by lia.
    rewrite Pos2Z.inj_mul.
    pose proof (pow2_split (53 - bitlen p) (53 - bitlen q) (53 - bitlen (p * q))
                  (53 - bitlen p - bitlen q + bitlen (p * q))) as E.
    specialize (E ltac:(lia) ltac:(lia) ltac:(lia) ltac:(lia) ltac:(lia)).
    rewrite <- (Z.mul_assoc _ (2 ^ (53 - bitlen (p * q)))), <- E. ring.
  - apply canon_digits; assumption.
  - lia.
Qed.

Lemma shl_align_fst m e e' :
  e' <= e -> Zpos (fst (shl_align m e e')) = Zpos m * 2 ^ (e - e').
Proof.
  intros H. unfold shl_align. destruct (e' - e) as [|d|d] eqn:Hd; try lia.
  - replace (e - e') with 0 by lia. rewrite Z.pow_0_r, Z.mul_1_r. reflexivity.
  - cbn [fst]. rewrite pos_iter_xO. do 2 f_equal. lia.
Qed.

Lemma binary_normalize_exact z e :
  e <= 0 -> - 2 ^ 53 < z < 2 ^ 53 ->
  binary_normalize prec emax (z * 2 ^ (- e)) e false = of_Z z.
Proof.
  intros He Hz.
  assert (Hpow : 0 < 2 ^ (- e)) by (apply Z.pow_pos_nonneg; lia).
  destruct z as [|p|p].
  - reflexivity.
  - rewrite of_Z_pos by lia.
    destruct (Zpos p * 2 ^ (- e)) as [|M|M] eqn:HM; try lia.
    apply binary_round_exact; [assumption | lia | apply bitlen_le_53; lia].
  - rewrite of_Z_neg by lia.
    destruct (Zneg p * 2 ^ (- e)) as [|M|M] eqn:HM; try lia.
    apply binary_round_exact; [assumption | lia | apply bitlen_le_53; lia].
Qed.

Lemma add_canon sx sy p q :
  Zpos p < 2 ^ 53 -> Zpos q < 2 ^ 53 ->
  - 2 ^ 53 < cond_Zopp sx (Zpos p) + cond_Zopp sy (Zpos q) < 2 ^ 53 ->
  add (canon sx p) (canon sy q)
  = of_Z (cond_Zopp sx (Zpos p) + cond_Zopp sy (Zpos q)).
Proof.
  intros Hp Hq Hs.
  apply bitlen_le_53 in Hp, Hq. pose proof (bitlen_pos p). pose proof (bitlen_pos q).
  unfold add, canon, SFadd.
  remember (Z.min (bitlen p - 53) (bitlen q - 53)) as ez eqn:Hez.
  assert (ez <= 0 /\ ez <= bitlen p - 53 /\ ez <= bitlen q - 53) as (Hz & Hzp & Hzq) by lia.
  clear Hez.
  rewrite !shl_align_fst by lia.
  rewrite !canon_mantissa by assumption.
  rewrite <- (binary_normalize_exact _ ez Hz Hs).
  f_equal.
  rewrite <- !Z.mul_assoc, <- !Z.pow_add_r by lia.
  replace (53 - bitlen p + (bitlen p - 53 - ez)) with (- ez) by lia.
  replace (53 - bitlen q + (bitlen q - 53 - ez)) with (- ez) by lia.
  destruct sx, sy; cbv beta iota delta [cond_Zopp]; ring.
Qed.

Lemma compare_canon p q :
  bitlen p <= 53 -> bitlen q <= 53 ->
  SFcompare (canon false p) (canon false q) = Some (Zpos p ?= Zpos q).
Proof.
  intros Hp Hq. unfold canon, SFcompare. f_equal.
  pose proof (bitlen_bound p) as [Hpl Hpu]. pose proof (bitlen_bound q) as [Hql Hqu].
  destruct (Z.compare_spec (bitlen p - 53) (bitlen q - 53)) as [E|L|G].
  - change (Pos.compare_cont Eq ?a ?b) with (Z.compare (Zpos a) (Zpos b)).
    rewrite !canon_mantissa by assumption.
    replace (bitlen q) with (bitlen p) by lia.
    assert (0 < 2 ^ (53 - bitlen p)) by (apply Z.pow_pos_nonneg; lia).
    destruct (Z.compare_spec (Zpos p) (Zpos q));
      [apply Z.compare_eq_iff | apply Z.compare_lt_iff | apply Z.compare_gt_iff]; nia.
  - symmetry. apply Z.compare_lt_iff.
    assert (2 ^ bitlen p <= 2 ^ (bitlen q - 1)) by (apply Z.pow_le_mono_r; lia). lia.
  - symmetry. apply Z.compare_gt_iff.
    assert (2 ^ bitlen q <= 2 ^ (bitlen p - 1)) by (apply Z.pow_le_mono_r; lia). lia.
Qed.

Lemma of_Z_nonneg_compare x y :
  0 <= x < 2 ^ 53 -> 0 <= y < 2 ^ 53 ->
  SFcompare (of_Z x) (of_Z y) = Some (x ?= y).
Proof.
  intros Hx Hy. destruct x as [|p|p], y as [|q|q]; try lia; try reflexivity.
  - rewrite of_Z_pos by lia. reflexivity.
  - rewrite of_Z_pos by lia. reflexivity.
  - rewrite !of_Z_pos by lia. apply compare_canon; apply bitlen_le_53; lia.
Qed.

Lemma le_of_Z x y :
  0 <= x < 2 ^ 53 -> 0 <= y < 2 ^ 53 -> le (of_Z x) (of_Z y) = (x <=? y).
Proof.
  intros Hx Hy. unfold le, SFleb. rewrite of_Z_nonneg_compare by assumption.
  unfold Z.leb. destruct (x ?= y); reflexivity.
Qed.

Lemma ge_of_Z x y :
  0 <= x < 2 ^ 53 -> 0 <= y < 2 ^ 53 -> ge (of_Z x) (of_Z y) = (y <=? x).
Proof. intros Hx Hy. apply le_of_Z; assumption. Qed.

Lemma lt_of_Z x y :
  0 <= x < 2 ^ 53 -> 0 <= y < 2 ^ 53 -> lt (of_Z x) (of_Z y) = (x <? y).
Proof.
  intros Hx Hy. unfold lt, SFltb. rewrite of_Z_nonneg_compare by assumption.
  unfold Z.ltb. destruct (x ?= y); reflexivity.
Qed.

Lemma of_Z_nonneg_inj x y :
  0 <= x < 2 ^ 53 -> 0 <= y < 2 ^ 53 -> of_Z x = of_Z y -> x = y.
Proof.
  intros Hx Hy E. pose proof (of_Z_nonneg_compare x y Hx Hy) as C.
  rewrite E, (of_Z_nonneg_compare y y Hy Hy), Z.compare_refl in C.
  apply Z.compare_eq. congruence.
Qed.

Lemma of_Z_nz z :
  z <> 0 -> - 2 ^ 53 < z < 2 ^ 53 -> of_Z z = canon (z <? 0) (Z.to_pos (Z.abs z)).
Proof.
  intros Hnz Hz. destruct z as [|p|p]; [lia| |].
  - apply of_Z_pos. lia.
  - apply of_Z_neg. lia.
Qed.

(** [x * 60] is exact on integers while the product fits 53 bits. *)
Lemma mul_of_Z x y :
  0 < y < 2 ^ 53 -> - 2 ^ 53 < x * y < 2 ^ 53 ->
  mul (of_Z x) (of_Z y) = of_Z (x * y).
Proof.
  intros Hy H. destruct y as [|q|q]; try lia.
  destruct x as [|p|p].
  - rewrite of_Z_pos by nia. reflexivity.
  - rewrite (of_Z_pos p), (of_Z_pos q) by nia.
    rewrite mul_canon by (apply bitlen_le_53; lia).
    simpl Z.mul. rewrite of_Z_pos by lia. reflexivity.
  - rewrite (of_Z_neg p), (of_Z_pos q) by nia.
    rewrite mul_canon by (apply bitlen_le_53; lia).
    simpl Z.mul. rewrite of_Z_neg by lia. reflexivity.
Qed.

Lemma add_of_Z x y :
  - 2 ^ 53 < x < 2 ^ 53 -> - 2 ^ 53 < y < 2 ^ 53 -> - 2 ^ 53 < x + y < 2 ^ 53 ->
  add (of_Z x) (of_Z y) = of_Z (x + y).
Proof.
  intros Hx Hy Hs. destruct x as [|p|p].
  - destruct y as [|q|q]; [reflexivity| |]; cbn [Z.add].
    + rewrite !of_Z_pos by lia. reflexivity.
    + rewrite !of_Z_neg by lia. reflexivity.
  - destruct y as [|q|q].
    + rewrite Z.add_0_r. rewrite !of_Z_pos by lia. reflexivity.
    + rewrite (of_Z_pos p), (of_Z_pos q) by lia.
      apply (add_canon false false); cbv [cond_Zopp]; lia.
    + rewrite (of_Z_pos p), (of_Z_neg q) by lia.
      apply (add_canon false true); cbv [cond_Zopp]; lia.
  - destruct y as [|q|q].
    + rewrite Z.add_0_r. rewrite !of_Z_neg by lia. reflexivity.
    + rewrite (of_Z_neg p), (of_Z_pos q) by lia.
      apply (add_canon true false); cbv [cond_Zopp]; lia.
    + rewrite (of_Z_neg p), (of_Z_neg q) by lia.
      apply (add_canon true true); cbv [cond_Zopp]; lia.
Qed.

(** [h * 60 + m] on integers is exact in the safe range. *)
Lemma minutes_of_Z h m :
  - 2 ^ 53 < h * 60 < 2 ^ 53 -> - 2 ^ 53 < m < 2 ^ 53 ->
  - 2 ^ 53 < h * 60 + m < 2 ^ 53 ->
  add (mul (of_Z h) (of_Z 60)) (of_Z m) = of_Z (h * 60 + m).
Proof.
  intros Hh Hm Hs. rewrite mul_of_Z by (try split; lia). apply add_of_Z; assumption.
Qed.

(* ================================================================== *)
(** * Strings: digits, [Number] and [split] *)
(* ================================================================== *)

Lemma is_digit_cases c :
  is_digit c = true ->
  In c ["0"; "1"; "2"; "3"; "4"; "5"; "6"; "7"; "8"; "9"]%char.
Proof.
  destruct c as [[] [] [] [] [] [] [] []]; intros H; try discriminate H;
    simpl; tauto.
Qed.

Ltac digit_cases c H :=
  apply is_digit_cases in H; simpl in H;
  repeat (destruct H as [H|H]; [subst c|]); [..|contradiction].

Lemma digit_val_range c : is_digit c = true -> 0 <= digit_val c <= 9.
Proof. intros H. digit_cases c H; vm_compute; split; discriminate. Qed.

Lemma digit_val_inj c d :
  is_digit c = true -> is_digit d = true -> digit_val c = digit_val d -> c = d.
Proof.
  intros Hc Hd. digit_cases c Hc; digit_cases d Hd; intros E;
    solve [reflexivity | discriminate E].
Qed.

Lemma digit_not_space c : is_digit c = true -> is_space c = false.
Proof. intros H. digit_cases c H; reflexivity. Qed.

Lemma digit_not_colon c : is_digit c = true -> Ascii.eqb c ":" = false.
Proof. intros H. digit_cases c H; reflexivity. Qed.

Lemma trim_left_digits c r : is_digit c = true -> trim_left (String c r) = String c r.
Proof. intros H. simpl. rewrite digit_not_space by assumption. reflexivity. Qed.

Lemma trim_right_digits s : all_digits s = true -> trim_right s = s.
Proof.
  induction s as [|c r IH]; [reflexivity|]. simpl. intros H.
  apply andb_prop in H as [Hc Hr]. rewrite IH by assumption.
  destruct r; [rewrite digit_not_space by assumption|]; reflexivity.
Qed.

Lemma span_digits_all s : all_digits s = true -> span_digits s = (s, "").
Proof.
  induction s as [|c r IH]; [reflexivity|]. simpl. intros H.
  apply andb_prop in H as [Hc Hr]. rewrite Hc, IH by assumption. reflexivity.
Qed.

Lemma append_nil_r s : (s ++ "")%string = s.
Proof. induction s; simpl; congruence. Qed.

Lemma unsigned_decimal_digits s :
  s <> "" -> all_digits s = true ->
  unsigned_decimal false s = of_Z (digits_value s).
Proof.
  intros Hne H. unfold unsigned_decimal.
  replace (s =? "Infinity")%string with false.
  2:{ destruct s as [|c r]; [reflexivity|]. simpl in H.
      apply andb_prop in H as [Hc _]. digit_cases c Hc; reflexivity. }
  rewrite span_digits_all by assumption. rewrite append_nil_r.
  destruct s as [|c r]; [contradiction|].
  cbn [exponent_part String.length Z.of_nat Z.sub Z.opp Z.add].
  unfold decimal_to_number.
  destruct (digits_value (String c r) =? 0) eqn:E.
  - apply Z.eqb_eq in E. rewrite E. reflexivity.
  - cbn [Z.leb Z.compare Z.pow]. rewrite Z.mul_1_r. reflexivity.
Qed.

(** [Number] of a non-empty run of decimal digits is its value. *)
Lemma Number_digits s :
  s <> "" -> all_digits s = true -> Number_ s = of_Z (digits_value s).
Proof.
  intros Hne H. rewrite <- (unsigned_decimal_digits s) by assumption.
  unfold Number_, trim.
  destruct s as [|c r]; [contradiction|].
  pose proof H as H'. simpl in H'. apply andb_prop in H' as [Hc Hr].
  rewrite trim_left_digits by assumption.
  rewrite trim_right_digits by assumption.
  digit_cases c Hc; try reflexivity.
  destruct r as [|c2 r2]; [reflexivity|].
  simpl in Hr. apply andb_prop in Hr as [Hc2 _].
  digit_cases c2 Hc2; reflexivity.
Qed.

(** Shape of a well-formed string. *)
Lemma wellFormed_inv s :
  wellFormed s = true ->
  exists h1 h2 m1 m2,
    s = String h1 (String h2 (String ":" (String m1 (String m2 ""))))
    /\ is_digit h1 = true /\ is_digit h2 = true
    /\ is_digit m1 = true /\ is_digit m2 = true.
Proof.
  destruct s as [|h1 [|h2 [|c [|m1 [|m2 [|x r]]]]]]; try discriminate.
  simpl. intros H.
  apply andb_prop in H as [H H4]. apply andb_prop in H as [H H3].
  apply andb_prop in H as [H Hc]. apply andb_prop in H as [H1 H2].
  apply Ascii.eqb_eq in Hc. subst c.
  exists h1, h2, m1, m2. repeat split; assumption.
Qed.

Lemma wellFormed_split s :
  wellFormed s = true ->
  exists hs ms,
    split_list ":" s = [hs; ms]
    /\ hs <> "" /\ all_digits hs = true /\ digits_value hs = hourOf s
    /\ ms <> "" /\ all_digits ms = true /\ digits_value ms = minuteOf s.
Proof.
  intros H. apply wellFormed_inv in H as (h1 & h2 & m1 & m2 & -> & H1 & H2 & H3 & H4).
  exists (String h1 (String h2 "")), (String m1 (String m2 "")).
  unfold split_list. cbn [split].
  rewrite (digit_not_colon h1), (digit_not_colon h2),
    (digit_not_colon m1), (digit_not_colon m2) by assumption.
  cbn [Ascii.eqb Bool.eqb all_digits].
  rewrite H1, H2, H3, H4.
  repeat split; discriminate.
Qed.

Lemma wellFormed_range s :
  wellFormed s = true ->
  0 <= hourOf s <= 99 /\ 0 <= minuteOf s <= 99 /\ 0 <= minuteOfDay s <= 6039.
Proof.
  intros H. apply wellFormed_inv in H as (h1 & h2 & m1 & m2 & -> & H1 & H2 & H3 & H4).
  unfold minuteOfDay, hourOf, minuteOf.
  apply digit_val_range in H1, H2, H3, H4. lia.
Qed.

Lemma pow53 : 2 ^ 53 = 9007199254740992.
Proof. reflexivity. Qed.

(** The engine's conversion of a string, spelled out. *)
Lemma timeToMinutes_string s :
  Engine.timeToMinutes (VString s)
  = Ok (let nums := map Number_ (split_list ":" s) in
        add (mul (ToNumber (element nums 0)) (of_Z 60)) (ToNumber (element nums 1))).
Proof. reflexivity. Qed.

Lemma timeToMinutes_components s c0 c1 rest :
  split_list ":" s = c0 :: c1 :: rest ->
  Engine.timeToMinutes (VString s)
  = Ok (add (mul (Number_ c0) (of_Z 60)) (Number_ c1)).
Proof. intros H. rewrite timeToMinutes_string, H. reflexivity. Qed.

(** On a well-formed string the conversion is the minute of the day. *)
Lemma timeToMinutes_wellFormed s :
  wellFormed s = true ->
  Engine.timeToMinutes (VString s) = Ok (of_Z (minuteOfDay s)).
Proof.
  intros H. pose proof (wellFormed_range s H) as (Hh & Hm & Hd).
  destruct (wellFormed_split s H) as (hs & ms & Hs & Hne1 & Hd1 & Hv1 & Hne2 & Hd2 & Hv2).
  rewrite (timeToMinutes_components s hs ms []) by assumption.
  rewrite !Number_digits by assumption. rewrite Hv1, Hv2.
  unfold minuteOfDay. rewrite minutes_of_Z; [reflexivity| | |]; rewrite pow53; lia.
Qed.

(** ** Components of any length *)

Lemma split_digits s : all_digits s = true -> split ":" s = (s, []).
Proof.
  induction s as [|c r IH]; [reflexivity|]. simpl. intros H.
  apply andb_prop in H as [Hc Hr]. rewrite IH by assumption.
  rewrite digit_not_colon by assumption. reflexivity.
Qed.

Lemma split_digits_colon hs r :
  all_digits hs = true ->
  split ":" (hs ++ String ":" r) = (hs, split_list ":" r).
Proof.
  induction hs as [|c t IH]; simpl; intros H.
  - unfold split_list. destruct (split ":" r). reflexivity.
  - apply andb_prop in H as [Hc Ht]. rewrite IH by assumption.
    rewrite digit_not_colon by assumption. reflexivity.
Qed.

Lemma digits_acc_nonneg s acc :
  all_digits s = true -> 0 <= acc -> 0 <= digits_acc acc s.
Proof.
  revert acc. induction s as [|c r IH]; intros acc H Ha; [assumption|].
  cbn [all_digits digits_acc] in *. apply andb_prop in H as [Hc Hr].
  apply IH; [assumption|]. pose proof (digit_val_range c Hc). lia.
Qed.

Lemma digits_value_nonneg s : all_digits s = true -> 0 <= digits_value s.
Proof. intros H. apply digits_acc_nonneg; [assumption|lia]. Qed.

(** Two runs of digits around a colon convert to hours times sixty plus
    minutes, however many digits there are, within the exact range. *)
Lemma timeToMinutes_digit_runs hs ms :
  hs <> "" -> all_digits hs = true -> ms <> "" -> all_digits ms = true ->
  digits_value hs * 60 + digits_value ms < 2 ^ 53 ->
  Engine.timeToMinutes (VString (hs ++ String ":" ms))
  = Ok (of_Z (digits_value hs * 60 + digits_value ms)).
Proof.
  intros Hne1 Hd1 Hne2 Hd2 Hb.
  pose proof (digits_value_nonneg hs Hd1) as Hh.
  pose proof (digits_value_nonneg ms Hd2) as Hm.
  rewrite (timeToMinutes_components _ hs ms []).
  - rewrite !Number_digits by assumption.
    rewrite minutes_of_Z by lia. reflexivity.
  - unfold split_list at 1. rewrite split_digits_colon by assumption.
    unfold split_list. rewrite split_digits by assumption. reflexivity.
Qed.

(* ================================================================== *)
(** * Not-a-number, truthiness and the engine on strings *)
(* ================================================================== *)

Lemma Ok_inj {A} (a b : A) : Ok a = Ok b -> a = b.
Proof. congruence. Qed.

Lemma is_nan_eq x : is_nan x = true -> x = NaN.
Proof. destruct x; try discriminate. reflexivity. Qed.

Lemma add_nan_r x : add x NaN = NaN.
Proof. destruct x; reflexivity. Qed.

Lemma le_nan_l y : le NaN y = false.
Proof. reflexivity. Qed.

Lemma ge_nan_l y : ge NaN y = false.
Proof. destruct y; reflexivity. Qed.

Lemma of_Z_not_nan z : - 2 ^ 53 < z < 2 ^ 53 -> is_nan (of_Z z) = false.
Proof.
  intros H. destruct z as [|p|p]; [reflexivity| |].
  - rewrite of_Z_pos by lia. reflexivity.
  - rewrite of_Z_neg by lia. reflexivity.
Qed.

Lemma truthy_nonempty s : s <> "" -> truthy (VString s) = true.
Proof.
  intros H. cbn [truthy].
  destruct (String.eqb_spec s ""); [contradiction|reflexivity].
Qed.

Lemma wellFormed_nonempty s : wellFormed s = true -> s <> "".
Proof. destruct s; discriminate. Qed.

Lemma absent_falsy v : absent v = true -> truthy v = false.
Proof.
  destruct v; try discriminate; try reflexivity.
  simpl. intros ->. reflexivity.
Qed.

Lemma nonNumeric_NaN s :
  nonNumeric s = true -> Engine.timeToMinutes (VString s) = Ok NaN.
Proof.
  unfold nonNumeric, isNaN. rewrite timeToMinutes_string. cbv zeta.
  intros H. f_equal. apply orb_prop in H as [H|H]; apply is_nan_eq in H; rewrite H.
  - reflexivity.
  - apply add_nan_r.
Qed.

Lemma wellFormed_numeric s : wellFormed s = true -> nonNumeric s = false.
Proof.
  intros H. pose proof (wellFormed_range s H) as (Hh & Hm & _).
  destruct (wellFormed_split s H) as (hs & ms & Hs & Hne1 & Hd1 & Hv1 & Hne2 & Hd2 & Hv2).
  unfold nonNumeric, isNaN. rewrite Hs. cbn [map element nth_error ToNumber].
  rewrite !Number_digits by assumption. rewrite Hv1, Hv2.
  rewrite !of_Z_not_nan by (rewrite pow53; lia). reflexivity.
Qed.

(** ** The range test *)

Lemma isTimeInRange_strings t s e anp :
  t <> "" -> s <> "" -> e <> "" ->
  Engine.isTimeInRange (VString t) (VString s) (VString e) anp
  = (timeMinutes <- Engine.timeToMinutes (VString t) ;;
     startMinutes <- Engine.timeToMinutes (VString s) ;;
     endMinutes <- Engine.timeToMinutes (VString e) ;;
     Ok (if le startMinutes endMinutes
         then ge timeMinutes startMinutes && le timeMinutes endMinutes
         else ge timeMinutes startMinutes || le timeMinutes endMinutes)).
Proof.
  intros Ht Hs He. unfold Engine.isTimeInRange.
  rewrite !truthy_nonempty by assumption. cbn [negb orb].
  rewrite !timeToMinutes_string. cbn [bind].
  match goal with |- context [if ?b then _ else _] => destruct b end; reflexivity.
Qed.

Lemma isTimeInRange_wellFormed t s e anp :
  wellFormed t = true -> wellFormed s = true -> wellFormed e = true ->
  Engine.isTimeInRange (VString t) (VString s) (VString e) anp
  = Ok (inRange (minuteOfDay t) (minuteOfDay s) (minuteOfDay e)).
Proof.
  intros Ht Hs He.
  rewrite isTimeInRange_strings by (apply wellFormed_nonempty; assumption).
  rewrite !timeToMinutes_wellFormed by assumption. cbn [bind].
  pose proof (wellFormed_range t Ht) as (_ & _ & Rt).
  pose proof (wellFormed_range s Hs) as (_ & _ & Rs).
  pose proof (wellFormed_range e He) as (_ & _ & Re).
  rewrite !le_of_Z, !ge_of_Z by (rewrite pow53; lia).
  unfold inRange. destruct (minuteOfDay s <=? minuteOfDay e); reflexivity.
Qed.

Lemma isTimeInRange_NaN t s e anp :
  t <> "" -> s <> "" -> e <> "" ->
  Engine.timeToMinutes (VString t) = Ok NaN ->
  Engine.isTimeInRange (VString t) (VString s) (VString e) anp = Ok false.
Proof.
  intros Ht Hs He HN. rewrite isTimeInRange_strings by assumption.
  rewrite HN, !timeToMinutes_string. cbn [bind]. rewrite ge_nan_l, le_nan_l.
  match goal with |- context [if ?b then _ else _] => destruct b end; reflexivity.
Qed.

Lemma inRange_nonwrapping t s e :
  s <= e -> (inRange t s e = true <-> s <= t <= e).
Proof.
  intros L. unfold inRange. destruct (Z.leb_spec s e) as [_|F]; [|lia].
  rewrite andb_true_iff, !Z.leb_le. reflexivity.
Qed.

Lemma inRange_wrapping t s e :
  s > e -> (inRange t s e = true <-> t >= s \/ t <= e).
Proof.
  intros G. unfold inRange. destruct (Z.leb_spec s e) as [F|_]; [lia|].
  rewrite orb_true_iff, !Z.leb_le. lia.
Qed.

Lemma inRange_boundary t s e : t = s \/ t = e -> inRange t s e = true.
Proof.
  intros H. destruct (Z_le_gt_dec s e) as [L|G].
  - apply inRange_nonwrapping; lia.
  - apply inRange_wrapping; lia.
Qed.

Lemma isOvernightFlight_strings d a :
  Engine.isOvernightFlight (VString d) (VString a)
  = (arr <- Engine.timeToMinutes (VString a) ;;
     dep <- Engine.timeToMinutes (VString d) ;;
     Ok (lt arr dep)).
Proof. reflexivity. Qed.

Lemma isValidTimeRange_strings s e :
  s <> "" -> e <> "" ->
  Engine.isValidTimeRange (VString s) (VString e)
  = (start <- Engine.timeToMinutes (VString s) ;;
     end_ <- Engine.timeToMinutes (VString e) ;;
     Ok (ge end_ start)).
Proof.
  intros Hs He. unfold Engine.isValidTimeRange.
  rewrite !truthy_nonempty by assumption. reflexivity.
Qed.

Lemma isValidTimeRange_wellFormed s e :
  wellFormed s = true -> wellFormed e = true ->
  Engine.isValidTimeRange (VString s) (VString e)
  = Ok (minuteOfDay s <=? minuteOfDay e).
Proof.
  intros Hs He.
  rewrite isValidTimeRange_strings by (apply wellFormed_nonempty; assumption).
  rewrite !timeToMinutes_wellFormed by assumption. cbn [bind].
  pose proof (wellFormed_range s Hs) as (_ & _ & Rs).
  pose proof (wellFormed_range e He) as (_ & _ & Re).
  rewrite ge_of_Z by (rewrite pow53; lia). reflexivity.
Qed.

Lemma app_timeToMinutes_string s :
  s <> "" ->
  App.timeToMinutes (VString s)
  = if nonNumeric s then Ok (of_Z 0) else Engine.timeToMinutes (VString s).
Proof.
  intros Hs. unfold App.timeToMinutes.
  rewrite truthy_nonempty by assumption. cbn [negb orb is_string split_value bind].
  unfold nonNumeric. cbv zeta. rewrite timeToMinutes_string.
  match goal with |- context [if ?b then _ else _] => destruct b end; reflexivity.
Qed.

Lemma valid_inv s :
  valid s = true -> wellFormed s = true /\ hourOf s <= 23 /\ minuteOf s <= 59.
Proof.
  unfold valid. intros H.
  apply andb_prop in H as [H H3]. apply andb_prop in H as [H1 H2].
  apply Z.leb_le in H2, H3. auto.
Qed.

Lemma minuteOfDay_inj s1 s2 :
  valid s1 = true -> valid s2 = true -> minuteOfDay s1 = minuteOfDay s2 -> s1 = s2.
Proof.
  intros V1 V2. apply valid_inv in V1 as (W1 & Hh1 & Hm1), V2 as (W2 & Hh2 & Hm2).
  pose proof (wellFormed_range s1 W1) as (Rh1 & Rm1 & _).
  pose proof (wellFormed_range s2 W2) as (Rh2 & Rm2 & _).
  apply wellFormed_inv in W1 as (a1 & b1 & c1 & d1 & -> & A1 & B1 & C1 & D1).
  apply wellFormed_inv in W2 as (a2 & b2 & c2 & d2 & -> & A2 & B2 & C2 & D2).
  unfold minuteOfDay, hourOf, minuteOf in *. intros E.
  pose proof (digit_val_range _ A1). pose proof (digit_val_range _ B1).
  pose proof (digit_val_range _ C1). pose proof (digit_val_range _ D1).
  pose proof (digit_val_range _ A2). pose proof (digit_val_range _ B2).
  pose proof (digit_val_range _ C2). pose proof (digit_val_range _ D2).
  assert (digit_val a1 = digit_val a2) by lia.
  assert (digit_val b1 = digit_val b2) by lia.
  assert (digit_val c1 = digit_val c2) by lia.
  assert (digit_val d1 = digit_val d2) by lia.
  rewrite (digit_val_inj a1 a2), (digit_val_inj b1 b2),
    (digit_val_inj c1 c2), (digit_val_inj d1 d2) by assumption.
  reflexivity.
Qed.

(* ================================================================== *)
(** * Filter passes *)
(* ================================================================== *)

Section FilterPass.

Context {A : Type}.
Variable p : A -> result bool.

Lemma filter_accepted l l' :
  App.filter p l = Ok l' -> Forall (accepts p) l'.
Proof.
  revert l'. induction l as [|x r IH]; intros l' H; simpl in H.
  - inversion H. constructor.
  - destruct (p x) as [b|] eqn:Hx; [|discriminate]. cbn [bind] in H.
    destruct (App.filter p r) as [r'|]; [|discriminate]. cbn [bind] in H.
    apply Ok_inj in H. subst l'. destruct b.
    + constructor; [exact Hx | apply IH; reflexivity].
    + apply IH; reflexivity.
Qed.

Lemma filter_keeps (P : A -> Prop) l l' :
  App.filter p l = Ok l' -> Forall P l -> Forall P l'.
Proof.
  revert l'. induction l as [|x r IH]; intros l' H HP; simpl in H.
  - inversion H. constructor.
  - destruct (p x) as [b|]; [|discriminate]. cbn [bind] in H.
    destruct (App.filter p r) as [r'|]; [|discriminate]. cbn [bind] in H.
    apply Ok_inj in H. subst l'. inversion HP; subst. destruct b.
    + constructor; [assumption | apply IH; [reflexivity | assumption]].
    + apply IH; [reflexivity | assumption].
Qed.

Lemma filter_all_accepted l :
  Forall (accepts p) l -> App.filter p l = Ok l.
Proof.
  induction 1 as [|x r Hx _ IH]; [reflexivity|].
  simpl. rewrite Hx. cbn [bind]. rewrite IH. reflexivity.
Qed.

Lemma filter_idempotent l :
  (l' <- App.filter p l ;; App.filter p l') = App.filter p l.
Proof.
  destruct (App.filter p l) as [l'|msg] eqn:E; [|reflexivity].
  cbn [bind]. apply filter_all_accepted. eapply filter_accepted; eassumption.
Qed.

End FilterPass.

Lemma filter_true {A} (l : list A) : App.filter (fun _ => Ok true) l = Ok l.
Proof. apply filter_all_accepted. apply Forall_forall. intros; reflexivity. Qed.

Lemma filterDeparture_filter s e l :
  App.filterDeparture s e l = App.filter (departureCallback s e) l.
Proof.
  unfold App.filterDeparture, departureCallback.
  destruct (negb (s =? "")%string && negb (e =? "")%string);
    [reflexivity | symmetry; apply filter_true].
Qed.

Lemma filterArrival_filter s e l :
  App.filterArrival s e l = App.filter (arrivalCallback s e) l.
Proof.
  unfold App.filterArrival, arrivalCallback.
  destruct (negb (s =? "")%string && negb (e =? "")%string);
    [reflexivity | symmetry; apply filter_true].
Qed.

Lemma filterUnited_filter u m l :
  App.filterUnited u m l = App.filter (unitedCallback u m) l.
Proof.
  unfold App.filterUnited, unitedCallback.
  destruct u; [reflexivity | symmetry; apply filter_true].
Qed.

(** What the three passes let through goes through them again unchanged. *)
Lemma filterResults_fixpoint el m l l' :
  App.filterResults el m l = Ok l' -> App.filterResults el m l' = Ok l'.
Proof.
  unfold App.filterResults.
  rewrite !filterDeparture_filter.
  destruct (App.filter _ l) as [l1|] eqn:E1; [|discriminate]. cbn [bind].
  rewrite !filterArrival_filter.
  destruct (App.filter _ l1) as [l2|] eqn:E2; [|discriminate]. cbn [bind].
  rewrite !filterUnited_filter. intros E3.
  assert (D2 : Forall (accepts (departureCallback (App.depTimeStart el)
                                  (App.depTimeEnd el))) l2).
  { eapply filter_keeps; [exact E2|]. eapply filter_accepted; exact E1. }
  assert (D3 : Forall (accepts (departureCallback (App.depTimeStart el)
                                  (App.depTimeEnd el))) l').
  { eapply filter_keeps; [exact E3|exact D2]. }
  assert (A3 : Forall (accepts (arrivalCallback (App.arrTimeStart el)
                                  (App.arrTimeEnd el))) l').
  { eapply filter_keeps; [exact E3|]. eapply filter_accepted; exact E2. }
  rewrite (filter_all_accepted _ l' D3). cbn [bind].
  rewrite filterArrival_filter, (filter_all_accepted _ l' A3). cbn [bind].
  rewrite filterUnited_filter.
  apply filter_all_accepted. eapply filter_accepted; exact E3.
Qed.

(** Feeding the stored result back as the current results and filtering
    again stores the same list. *)
Lemma applyFilters_stable el st st' :
  App.currentResults st <> [] ->
  App.applyFilters el st = Ok st' ->
  App.applyFilters el
    {| App.currentMode := App.currentMode st';
       App.currentResults := App.filteredResults st';
       App.filteredResults := App.filteredResults st' |}
  = Ok {| App.currentMode := App.currentMode st';
          App.currentResults := App.filteredResults st';
          App.filteredResults := App.filteredResults st' |}.
Proof.
  intros Hne H. unfold App.applyFilters in H.
  destruct (App.currentResults st) as [|x r] eqn:Hc; [contradiction|].
  destruct (App.filterResults el (App.currentMode st) (x :: r)) as [l'|] eqn:E;
    [|discriminate].
  cbn [bind] in H. apply Ok_inj in H. subst st'. cbn.
  unfold App.applyFilters. cbn.
  destruct l' as [|y l']; [reflexivity|].
  rewrite (filterResults_fixpoint _ _ _ _ E). reflexivity.
Qed.

(* ================================================================== *)
(** * The documented examples *)
(* ================================================================== *)

Example number_of_digits : Number_ "25" = of_Z 25.
Proof. reflexivity. Qed.

Example number_of_blank : Number_ " " = S754_zero false.
Proof. reflexivity. Qed.

Example number_of_padded : Number_ " 07 " = of_Z 7.
Proof. reflexivity. Qed.

Example number_of_hex : Number_ "0x1F" = of_Z 31.
Proof. reflexivity. Qed.

Example number_of_fraction : mul (Number_ "1.5") (of_Z 2) = of_Z 3.
Proof. reflexivity. Qed.

Example number_of_letters : Number_ "ab" = NaN.
Proof. reflexivity. Qed.

Example number_of_suffix : Number_ "12px" = NaN.
Proof. reflexivity. Qed.

Example split_three : split_list ":" "12:30:45" = ["12"; "30"; "45"].
Proof. reflexivity. Qed.

Example split_none : split_list ":" "1230" = ["1230"].
Proof. reflexivity. Qed.

Example in_plain_range :
  Engine.isTimeInRange (VString "10:00") (VString "09:00") (VString "11:00") false
  = Ok true.
Proof. reflexivity. Qed.

Example before_plain_range :
  Engine.isTimeInRange (VString "08:00") (VString "09:00") (VString "11:00") false
  = Ok false.
Proof. reflexivity. Qed.

Example in_wrapping_range_late :
  Engine.isTimeInRange (VString "23:30") (VString "22:00") (VString "06:00") false
  = Ok true.
Proof. reflexivity. Qed.

Example in_wrapping_range_early :
  Engine.isTimeInRange (VString "05:59") (VString "22:00") (VString "06:00") false
  = Ok true.
Proof. reflexivity. Qed.

Example outside_wrapping_range :
  Engine.isTimeInRange (VString "12:00") (VString "22:00") (VString "06:00") false
  = Ok false.
Proof. reflexivity. Qed.

(** An absent departure makes the arrival filter throw: the overnight test
    splits the departure before anything else reads it. *)
Example arrival_filter_without_departure :
  Engine.isArrivalTimeInRange VUndefined (VString "01:00")
    (VString "00:00") (VString "02:00")
  = Throw "TypeError: cannot read properties of undefined or null".
Proof. reflexivity. Qed.

(** Two infinite components are numeric to [isNaN], yet their sum is not. *)
Example app_timeToMinutes_infinities :
  App.timeToMinutes (VString "Infinity:-Infinity") = Ok NaN.
Proof. reflexivity. Qed.

(** The end-to-end scenario: only the 23:00 to 02:00 flight arrives
    between 00:00 and 03:00. *)
Example arrival_filter_scenario :
  App.filterResults
    {| App.depTimeStart := ""; App.depTimeEnd := "";
       App.arrTimeStart := "00:00"; App.arrTimeEnd := "03:00";
       App.unitedOnlyFilter := false |}
    App.schedules
    [flight "08:00" "10:30"; flight "23:00" "02:00"; flight "14:00" "13:55"]
  = Ok [flight "23:00" "02:00"].
Proof. reflexivity. Qed.

(* ================================================================== *)
(** * The claims *)
(* ================================================================== *)

(** C1.  On strings, [isArrivalTimeInRange(departure, arrival, filterStart,
    filterEnd)] returns exactly [isTimeInRange(arrival, filterStart,
    filterEnd)]: the overnight classification computed from the departure
    never changes the result (it holds for empty strings too, where both
    answer [true]).  The flight leaving at 23:00 and landing at 01:00 is
    overnight and passes the filter 00:00 to 02:00. *)
Theorem isArrivalTimeInRange_is_isTimeInRange :
  (forall departure arrival filterStart filterEnd : string,
      Engine.isArrivalTimeInRange (VString departure) (VString arrival)
        (VString filterStart) (VString filterEnd)
      = Engine.isTimeInRange (VString arrival) (VString filterStart)
          (VString filterEnd) false)
  /\ Engine.isOvernightFlight (VString "23:00") (VString "01:00") = Ok true
  /\ Engine.isArrivalTimeInRange (VString "23:00") (VString "01:00")
       (VString "00:00") (VString "02:00") = Ok true.
Proof.
  split; [|split; reflexivity].
  intros d a s e. unfold Engine.isArrivalTimeInRange.
  destruct (negb (truthy (VString a)) || negb (truthy (VString s))
            || negb (truthy (VString e))) eqn:G.
  - unfold Engine.isTimeInRange. rewrite G. reflexivity.
  - rewrite isOvernightFlight_strings, !timeToMinutes_string. cbn [bind].
    match goal with |- (if ?b then _ else _) = _ => destruct b end; reflexivity.
Qed.

(** C2.  For well-formed HH:MM strings [t], [s], [e] with minute-of-day
    values [t'], [s'], [e'], [isTimeInRange(t, s, e)] returns a boolean; when
    [s' <= e'] it is true iff [s' <= t' <= e']; when [s' > e'] it is true iff
    [t' >= s'] or [t' <= e']; and it is true at both boundaries [t' = s'] and
    [t' = e'], in either branch. *)
Theorem isTimeInRange_closed_range (t s e : string) (allowNextDay : bool) :
  wellFormed t = true -> wellFormed s = true -> wellFormed e = true ->
  let r := Engine.isTimeInRange (VString t) (VString s) (VString e) allowNextDay in
  let t' := minuteOfDay t in
  let s' := minuteOfDay s in
  let e' := minuteOfDay e in
  (r = Ok true \/ r = Ok false)
  /\ (s' <= e' -> (r = Ok true <-> s' <= t' <= e'))
  /\ (s' > e' -> (r = Ok true <-> t' >= s' \/ t' <= e'))
  /\ (t' = s' \/ t' = e' -> r = Ok true).
Proof.
  intros Ht Hs He r t' s' e'.
  assert (Hr : r = Ok (inRange t' s' e'))
    by (apply isTimeInRange_wellFormed; assumption).
  rewrite Hr. split; [|split; [|split]].
  - destruct (inRange t' s' e'); auto.
  - intros L. rewrite <- (inRange_nonwrapping t' s' e' L).
    split; [apply Ok_inj | intros ->; reflexivity].
  - intros G. rewrite <- (inRange_wrapping t' s' e' G).
    split; [apply Ok_inj | intros ->; reflexivity].
  - intros B. rewrite (inRange_boundary t' s' e' B). reflexivity.
Qed.

Lemma isTimeInRange_closed_range_witness :
  (wellFormed "23:30" = true /\ wellFormed "22:00" = true
   /\ wellFormed "06:00" = true)
  /\ let r := Engine.isTimeInRange (VString "23:30") (VString "22:00")
                (VString "06:00") false in
     (r = Ok true \/ r = Ok false)
     /\ (1320 <= 360 -> (r = Ok true <-> 1320 <= 1410 <= 360))
     /\ (1320 > 360 -> (r = Ok true <-> 1410 >= 1320 \/ 1410 <= 360))
     /\ (1410 = 1320 \/ 1410 = 360 -> r = Ok true).
Proof.
  split; [repeat split|].
  apply (isTimeInRange_closed_range "23:30" "22:00" "06:00" false); reflexivity.
Defined.

(** C3.  For well-formed HH:MM departure and arrival strings,
    [isOvernightFlight(departure, arrival)] is true iff the arrival's
    minute-of-day is strictly below the departure's; with equal values it
    is false. *)
Theorem isOvernightFlight_strict (departure arrival : string) :
  wellFormed departure = true -> wellFormed arrival = true ->
  Engine.isOvernightFlight (VString departure) (VString arrival)
  = Ok (minuteOfDay arrival <? minuteOfDay departure)
  /\ (Engine.isOvernightFlight (VString departure) (VString arrival) = Ok true
      <-> minuteOfDay arrival < minuteOfDay departure)
  /\ (minuteOfDay arrival = minuteOfDay departure ->
      Engine.isOvernightFlight (VString departure) (VString arrival) = Ok false).
Proof.
  intros Hd Ha.
  pose proof (wellFormed_range departure Hd) as (_ & _ & Rd).
  pose proof (wellFormed_range arrival Ha) as (_ & _ & Ra).
  assert (E : Engine.isOvernightFlight (VString departure) (VString arrival)
              = Ok (minuteOfDay arrival <? minuteOfDay departure)).
  { rewrite isOvernightFlight_strings, !timeToMinutes_wellFormed by assumption.
    cbn [bind]. rewrite lt_of_Z by (rewrite pow53; lia). reflexivity. }
  rewrite E. split; [reflexivity|split].
  - split; intros H.
    + apply Ok_inj in H. apply Z.ltb_lt. assumption.
    + f_equal. apply Z.ltb_lt. assumption.
  - intros H. rewrite H, Z.ltb_irrefl. reflexivity.
Qed.

Lemma isOvernightFlight_strict_witness :
  (wellFormed "14:00" = true /\ wellFormed "13:55" = true)
  /\ Engine.isOvernightFlight (VString "14:00") (VString "13:55") = Ok (835 <? 840)
  /\ (Engine.isOvernightFlight (VString "14:00") (VString "13:55") = Ok true
      <-> 835 < 840)
  /\ (835 = 840 ->
      Engine.isOvernightFlight (VString "14:00") (VString "13:55") = Ok false).
Proof.
  split; [split; reflexivity|].
  apply (isOvernightFlight_strict "14:00" "13:55"); reflexivity.
Defined.

(** C4.  For a non-empty time string whose hour or minute component is
    non-numeric, the conversion is not a number, and for well-formed bounds
    [s] and [e], [isTimeInRange(time, s, e)] returns [false]: it does not
    throw and the malformed time matches no range. *)
Theorem isTimeInRange_malformed_time (time s e : string) (allowNextDay : bool) :
  time <> "" -> nonNumeric time = true ->
  wellFormed s = true -> wellFormed e = true ->
  Engine.timeToMinutes (VString time) = Ok NaN
  /\ Engine.isTimeInRange (VString time) (VString s) (VString e) allowNextDay
     = Ok false.
Proof.
  intros Hne Hnn Hs He. split.
  - apply nonNumeric_NaN; assumption.
  - apply isTimeInRange_NaN; try assumption.
    + apply wellFormed_nonempty; assumption.
    + apply wellFormed_nonempty; assumption.
    + apply nonNumeric_NaN; assumption.
Qed.

Lemma isTimeInRange_malformed_time_witness :
  ("ab:30" <> "" /\ nonNumeric "ab:30" = true
   /\ wellFormed "22:00" = true /\ wellFormed "06:00" = true)
  /\ Engine.timeToMinutes (VString "ab:30") = Ok NaN
  /\ Engine.isTimeInRange (VString "ab:30") (VString "22:00") (VString "06:00") false
     = Ok false.
Proof.
  assert (H : "ab:30" <> "") by discriminate.
  split.
  - split; [exact H|]. split; [reflexivity|]. split; reflexivity.
  - apply (isTimeInRange_malformed_time "ab:30" "22:00" "06:00" false H);
      reflexivity.
Defined.

(** C5.  If any of [time], [startTime], [endTime] is empty or absent,
    [isTimeInRange] returns [true]; if any of [arrival], [filterStart],
    [filterEnd] is empty or absent, [isArrivalTimeInRange] returns [true],
    whatever the departure.  In particular [isTimeInRange("12:00","","")]
    and [isArrivalTimeInRange("10:00","11:00","","")] are true. *)
Theorem empty_input_allows_all :
  (forall (time startTime endTime : value) (allowNextDay : bool),
      absent time = true \/ absent startTime = true \/ absent endTime = true ->
      Engine.isTimeInRange time startTime endTime allowNextDay = Ok true)
  /\ (forall departure arrival filterStart filterEnd : value,
      absent arrival = true \/ absent filterStart = true \/ absent filterEnd = true ->
      Engine.isArrivalTimeInRange departure arrival filterStart filterEnd = Ok true)
  /\ Engine.isTimeInRange (VString "12:00") (VString "") (VString "") false = Ok true
  /\ Engine.isArrivalTimeInRange (VString "10:00") (VString "11:00")
       (VString "") (VString "") = Ok true.
Proof.
  split; [|split; [|split; reflexivity]].
  - intros t s e anp H. unfold Engine.isTimeInRange.
    destruct H as [H|[H|H]]; apply absent_falsy in H; rewrite H; cbn [negb orb];
      rewrite ?orb_true_r; reflexivity.
  - intros d a s e H. unfold Engine.isArrivalTimeInRange.
    destruct H as [H|[H|H]]; apply absent_falsy in H; rewrite H; cbn [negb orb];
      rewrite ?orb_true_r; reflexivity.
Qed.

Lemma empty_input_allows_all_witness :
  (absent VUndefined = true /\ absent VNull = true)
  /\ Engine.isTimeInRange VUndefined (VString "09:00") (VString "11:00") false
     = Ok true
  /\ Engine.isArrivalTimeInRange VUndefined (VString "11:00") VNull (VString "12:00")
     = Ok true.
Proof.
  destruct empty_input_allows_all as (H1 & H2 & _).
  split; [split; reflexivity|]. split.
  - apply H1. left. reflexivity.
  - apply H2. right. left. reflexivity.
Defined.

(** C6.  For every valid HH:MM string (hour 00 to 23, minute 00 to 59),
    [timeToMinutes] returns an integer between 0 and 1439, and on valid
    strings the mapping is injective: equal results come from equal
    strings. *)
Theorem timeToMinutes_valid_range_injective (t1 t2 : string) :
  valid t1 = true -> valid t2 = true ->
  (exists n, Engine.timeToMinutes (VString t1) = Ok (of_Z n) /\ 0 <= n <= 1439)
  /\ (Engine.timeToMinutes (VString t1) = Engine.timeToMinutes (VString t2) ->
      t1 = t2).
Proof.
  intros V1 V2.
  pose proof (valid_inv t1 V1) as (W1 & Hh1 & Hm1).
  pose proof (valid_inv t2 V2) as (W2 & Hh2 & Hm2).
  pose proof (wellFormed_range t1 W1) as (Rh1 & Rm1 & Rd1).
  pose proof (wellFormed_range t2 W2) as (Rh2 & Rm2 & Rd2).
  rewrite !timeToMinutes_wellFormed by assumption. split.
  - exists (minuteOfDay t1). split; [reflexivity|]. unfold minuteOfDay in *. lia.
  - intros E. apply Ok_inj in E.
    apply of_Z_nonneg_inj in E; try (rewrite pow53; lia).
    apply minuteOfDay_inj; assumption.
Qed.

Lemma timeToMinutes_valid_range_injective_witness :
  (valid "23:59" = true /\ valid "00:00" = true)
  /\ (exists n, Engine.timeToMinutes (VString "23:59") = Ok (of_Z n)
                /\ 0 <= n <= 1439)
  /\ (Engine.timeToMinutes (VString "23:59") = Engine.timeToMinutes (VString "00:00")
      -> "23:59" = "00:00").
Proof.
  split; [split; reflexivity|].
  apply (timeToMinutes_valid_range_injective "23:59" "00:00"); reflexivity.
Defined.

(** C7.  [timeToMinutes] validates no bounds: when the first two
    colon-separated components of the input convert to the integers [h]
    and [m], the result is [h * 60 + m] in the arithmetic of the source,
    whatever its size, and it is the integer [h * 60 + m] itself as long as
    the product and the sum stay below [2 ^ 53] in magnitude, where that
    arithmetic is exact.  For 25:99 the result is 1599, above 1439. *)
Theorem timeToMinutes_no_bounds_check
  (s c0 c1 : string) (rest : list string) (h m : Z) :
  split_list ":" s = c0 :: c1 :: rest ->
  Number_ c0 = of_Z h -> Number_ c1 = of_Z m ->
  Engine.timeToMinutes (VString s) = Ok (add (mul (of_Z h) (of_Z 60)) (of_Z m))
  /\ (- 2 ^ 53 < h * 60 < 2 ^ 53 -> - 2 ^ 53 < m < 2 ^ 53 ->
      - 2 ^ 53 < h * 60 + m < 2 ^ 53 ->
      Engine.timeToMinutes (VString s) = Ok (of_Z (h * 60 + m))).
Proof.
  intros Hs Hh Hm.
  rewrite (timeToMinutes_components s c0 c1 rest Hs), Hh, Hm. split; [reflexivity|].
  intros B1 B2 B3. rewrite minutes_of_Z by assumption. reflexivity.
Qed.

Lemma timeToMinutes_no_bounds_check_witness :
  (split_list ":" "25:99" = ["25"; "99"]
   /\ Number_ "25" = of_Z 25 /\ Number_ "99" = of_Z 99)
  /\ Engine.timeToMinutes (VString "25:99") = Ok (of_Z 1599) /\ 1439 < 1599.
Proof.
  split; [repeat split|]. split; [|reflexivity].
  apply (timeToMinutes_no_bounds_check "25:99" "25" "99" [] 25 99);
    try reflexivity; rewrite pow53; lia.
Defined.

(** C8.  Filtering is idempotent: for every list of records and every
    fixed bounds, running the departure pass, the arrival pass or all the
    passes of [applyFilters] on the list and then again on the result gives
    what one run gives (the same list, or the same exception when a
    callback throws). *)
Theorem time_filters_idempotent :
  (forall (start end_ : string) (l : list App.item),
      (l' <- App.filterDeparture start end_ l ;; App.filterDeparture start end_ l')
      = App.filterDeparture start end_ l)
  /\ (forall (start end_ : string) (l : list App.item),
      (l' <- App.filterArrival start end_ l ;; App.filterArrival start end_ l')
      = App.filterArrival start end_ l)
  /\ (forall (el : App.elements) (m : App.mode) (l : list App.item),
      (l' <- App.filterResults el m l ;; App.filterResults el m l')
      = App.filterResults el m l).
Proof.
  split; [|split].
  - intros s e l.
    destruct (App.filterDeparture s e l) as [l'|] eqn:E; [|reflexivity]. cbn [bind].
    rewrite filterDeparture_filter in *.
    apply filter_all_accepted. eapply filter_accepted; exact E.
  - intros s e l.
    destruct (App.filterArrival s e l) as [l'|] eqn:E; [|reflexivity]. cbn [bind].
    rewrite filterArrival_filter in *.
    apply filter_all_accepted. eapply filter_accepted; exact E.
  - intros el m l.
    destruct (App.filterResults el m l) as [l'|] eqn:E; [|reflexivity]. cbn [bind].
    apply filterResults_fixpoint with (l := l). exact E.
Qed.

(** C9.  [isValidTimeRange] returns [true] whenever either bound is empty
    or absent; on well-formed bounds it returns [true] iff the end's
    minute-of-day is at least the start's.  So every wrapping range
    (start after end) is invalid to it, while [isTimeInRange] accepts the
    same bounds as a range through midnight: it is true exactly on the
    times at or after the start or at or before the end, the start among
    them. *)
Theorem isValidTimeRange_rejects_wrapping :
  (forall startTime endTime : value,
      absent startTime = true \/ absent endTime = true ->
      Engine.isValidTimeRange startTime endTime = Ok true)
  /\ (forall s e : string,
      wellFormed s = true -> wellFormed e = true ->
      (Engine.isValidTimeRange (VString s) (VString e) = Ok true
       \/ Engine.isValidTimeRange (VString s) (VString e) = Ok false)
      /\ (Engine.isValidTimeRange (VString s) (VString e) = Ok true
          <-> minuteOfDay e >= minuteOfDay s))
  /\ (forall (t s e : string) (allowNextDay : bool),
      wellFormed t = true -> wellFormed s = true -> wellFormed e = true ->
      minuteOfDay s > minuteOfDay e ->
      Engine.isValidTimeRange (VString s) (VString e) = Ok false
      /\ (Engine.isTimeInRange (VString t) (VString s) (VString e) allowNextDay
          = Ok true
          <-> minuteOfDay t >= minuteOfDay s \/ minuteOfDay t <= minuteOfDay e)
      /\ Engine.isTimeInRange (VString s) (VString s) (VString e) allowNextDay
         = Ok true).
Proof.
  split; [|split].
  - intros s e H. unfold Engine.isValidTimeRange.
    destruct H as [H|H]; apply absent_falsy in H; rewrite H; cbn [negb orb];
      rewrite ?orb_true_r; reflexivity.
  - intros s e Hs He. rewrite isValidTimeRange_wellFormed by assumption. split.
    + destruct (minuteOfDay s <=? minuteOfDay e); auto.
    + split; intros E.
      * apply Ok_inj in E. apply Z.leb_le in E. lia.
      * f_equal. apply Z.leb_le. lia.
  - intros t s e anp Ht Hs He W.
    rewrite isValidTimeRange_wellFormed by assumption.
    rewrite !isTimeInRange_wellFormed by assumption.
    split; [|split].
    + f_equal. apply Z.leb_gt. lia.
    + rewrite <- (inRange_wrapping _ _ _ W).
      split; [apply Ok_inj | intros ->; reflexivity].
    + rewrite inRange_boundary by (left; reflexivity). reflexivity.
Qed.

Lemma isValidTimeRange_rejects_wrapping_witness :
  (absent (VString "") = true /\ wellFormed "09:00" = true
   /\ wellFormed "11:00" = true /\ wellFormed "23:30" = true
   /\ wellFormed "22:00" = true /\ wellFormed "06:00" = true /\ 1320 > 360)
  /\ Engine.isValidTimeRange (VString "") (VString "06:00") = Ok true
  /\ (Engine.isValidTimeRange (VString "09:00") (VString "11:00") = Ok true
      <-> 660 >= 540)
  /\ Engine.isValidTimeRange (VString "22:00") (VString "06:00") = Ok false
  /\ Engine.isTimeInRange (VString "22:00") (VString "22:00") (VString "06:00") false
     = Ok true.
Proof.
  destruct isValidTimeRange_rejects_wrapping as (H1 & H2 & H3).
  split; [repeat split|]. split; [|split; [|split]].
  - apply H1. left. reflexivity.
  - apply (H2 "09:00" "11:00"); reflexivity.
  - apply (H3 "23:30" "22:00" "06:00" false); reflexivity.
  - apply (H3 "23:30" "22:00" "06:00" false); reflexivity.
Defined.

(** C10.  The [timeToMinutes] of app.js agrees with the engine's on every
    well-formed HH:MM string.  On a missing input, a non-string, or a
    string with a non-numeric component it returns 0, which is not
    not-a-number, so such a departure compares in the sort exactly as
    00:00 does; the engine's conversion gives not-a-number on the same
    strings. *)
Theorem app_timeToMinutes_defaults_to_midnight :
  (forall s : string,
      wellFormed s = true ->
      App.timeToMinutes (VString s) = Engine.timeToMinutes (VString s)
      /\ App.timeToMinutes (VString s) = Ok (of_Z (minuteOfDay s)))
  /\ (forall v : value,
      absent v = true \/ is_string v = false
      \/ (exists s, v = VString s /\ nonNumeric s = true) ->
      App.timeToMinutes v = Ok (of_Z 0)
      /\ (forall b : value,
             App.compareDeparture v b = App.compareDeparture (VString "00:00") b
             /\ App.compareDeparture b v = App.compareDeparture b (VString "00:00")))
  /\ is_nan (of_Z 0) = false
  /\ (forall s : string,
      nonNumeric s = true -> Engine.timeToMinutes (VString s) = Ok NaN).
Proof.
  split; [|split; [|split]].
  - intros s H.
    rewrite app_timeToMinutes_string by (apply wellFormed_nonempty; assumption).
    rewrite wellFormed_numeric by assumption.
    split; [reflexivity | apply timeToMinutes_wellFormed; assumption].
  - intros v H.
    assert (E : App.timeToMinutes v = Ok (of_Z 0)).
    { destruct H as [H|[H|(s & -> & H)]].
      - apply absent_falsy in H. unfold App.timeToMinutes. rewrite H. reflexivity.
      - unfold App.timeToMinutes. rewrite H. rewrite orb_true_r. reflexivity.
      - destruct (String.eqb_spec s "") as [->|Hne]; [reflexivity|].
        rewrite app_timeToMinutes_string by assumption. rewrite H. reflexivity. }
    split; [exact E|]. intros b. unfold App.compareDeparture. rewrite E.
    split; reflexivity.
  - reflexivity.
  - exact nonNumeric_NaN.
Qed.

Lemma app_timeToMinutes_defaults_to_midnight_witness :
  (wellFormed "08:15" = true /\ absent VUndefined = true
   /\ is_string (VNumber (of_Z 815)) = false /\ nonNumeric "late" = true)
  /\ App.timeToMinutes (VString "08:15") = Ok (of_Z 495)
  /\ App.timeToMinutes VUndefined = Ok (of_Z 0)
  /\ App.timeToMinutes (VNumber (of_Z 815)) = Ok (of_Z 0)
  /\ App.timeToMinutes (VString "late") = Ok (of_Z 0)
  /\ Engine.timeToMinutes (VString "late") = Ok NaN.
Proof.
  destruct app_timeToMinutes_defaults_to_midnight as (H1 & H2 & _ & H4).
  split; [repeat split|]. split; [|split; [|split; [|split]]].
  - apply (H1 "08:15"). reflexivity.
  - apply (H2 VUndefined). left. reflexivity.
  - apply (H2 (VNumber (of_Z 815))). right. left. reflexivity.
  - apply (H2 (VString "late")). right. right. exists "late". split; reflexivity.
  - apply (H4 "late"). reflexivity.
Defined.

(* ================================================================== *)
(** * Further properties of the code *)
(* ================================================================== *)

(* ================================================================== *)
(** * Differences and signs of integers *)
(* ================================================================== *)

Lemma sub_canon_add sx sy p q :
  sub (canon sx p) (canon sy q) = add (canon sx p) (canon (negb sy) q).
Proof. destruct sx, sy; reflexivity. Qed.

Lemma sub_of_Z x y :
  - 2 ^ 53 < x < 2 ^ 53 -> - 2 ^ 53 < y < 2 ^ 53 -> - 2 ^ 53 < x - y < 2 ^ 53 ->
  sub (of_Z x) (of_Z y) = of_Z (x - y).
Proof.
  intros Hx Hy Hs. destruct y as [|q|q].
  - rewrite Z.sub_0_r. destruct x as [|p|p]; [reflexivity| |].
    + rewrite !of_Z_pos by lia. reflexivity.
    + rewrite !of_Z_neg by lia. reflexivity.
  - destruct x as [|p|p].
    + cbn [Z.sub Z.add Z.opp]. rewrite of_Z_pos, of_Z_neg by lia. reflexivity.
    + rewrite (of_Z_pos p), (of_Z_pos q) by lia. rewrite sub_canon_add.
      cbn [negb]. rewrite <- (of_Z_neg q) by lia. rewrite <- (of_Z_pos p) by lia.
      apply add_of_Z; lia.
    + rewrite (of_Z_neg p), (of_Z_pos q) by lia. rewrite sub_canon_add.
      cbn [negb]. rewrite <- (of_Z_neg q) by lia. rewrite <- (of_Z_neg p) by lia.
      apply add_of_Z; lia.
  - destruct x as [|p|p].
    + cbn [Z.sub Z.add Z.opp]. rewrite of_Z_pos, of_Z_neg by lia. reflexivity.
    + rewrite (of_Z_pos p), (of_Z_neg q) by lia. rewrite sub_canon_add.
      cbn [negb]. rewrite <- (of_Z_pos q) by lia. rewrite <- (of_Z_pos p) by lia.
      apply add_of_Z; lia.
    + rewrite (of_Z_neg p), (of_Z_neg q) by lia. rewrite sub_canon_add.
      cbn [negb]. rewrite <- (of_Z_pos q) by lia. rewrite <- (of_Z_neg p) by lia.
      apply add_of_Z; lia.
Qed.

Lemma lt_of_Z_zero z : - 2 ^ 53 < z < 2 ^ 53 -> lt (of_Z z) (of_Z 0) = (z <? 0).
Proof.
  intros H. destruct z as [|p|p]; [reflexivity| |].
  - rewrite of_Z_pos by lia. reflexivity.
  - rewrite of_Z_neg by lia. reflexivity.
Qed.

Lemma gt_of_Z_zero z : - 2 ^ 53 < z < 2 ^ 53 -> lt (of_Z 0) (of_Z z) = (0 <? z).
Proof.
  intros H. destruct z as [|p|p]; [reflexivity| |].
  - rewrite of_Z_pos by lia. reflexivity.
  - rewrite of_Z_neg by lia. reflexivity.
Qed.

(* ================================================================== *)
(** * Durations *)
(* ================================================================== *)

Lemma calculateDuration_strings d a :
  DataService.calculateDuration (VString d) (VString a)
  = (dep <- Engine.timeToMinutes (VString d) ;;
     arr <- Engine.timeToMinutes (VString a) ;;
     let duration := sub arr dep in
     if lt duration (of_Z 0)
     then Ok (add duration (mul (of_Z 24) (of_Z 60)))
     else Ok duration).
Proof. reflexivity. Qed.

Lemma calculateDuration_wellFormed d a :
  wellFormed d = true -> wellFormed a = true ->
  DataService.calculateDuration (VString d) (VString a)
  = Ok (of_Z (if minuteOfDay a - minuteOfDay d <? 0
              then minuteOfDay a - minuteOfDay d + 1440
              else minuteOfDay a - minuteOfDay d)).
Proof.
  intros Hd Ha.
  pose proof (wellFormed_range d Hd) as (_ & _ & Rd).
  pose proof (wellFormed_range a Ha) as (_ & _ & Ra).
  rewrite calculateDuration_strings, !timeToMinutes_wellFormed by assumption.
  cbn [bind]. cbv zeta.
  rewrite sub_of_Z by (rewrite pow53; lia).
  rewrite lt_of_Z_zero by (rewrite pow53; lia).
  destruct (minuteOfDay a - minuteOfDay d <? 0); [|reflexivity].
  change (mul (of_Z 24) (of_Z 60)) with (of_Z 1440).
  rewrite add_of_Z by (rewrite pow53; lia). reflexivity.
Qed.

(** X1.  For valid departure and arrival times [calculateDuration] returns a
    whole number of minutes between 0 and 1439 that leads from the departure
    to the arrival on the 24-hour clock; it is 0 exactly when both show the
    same time. *)
Theorem calculateDuration_valid (departure arrival : string) :
  valid departure = true -> valid arrival = true ->
  exists n,
    DataService.calculateDuration (VString departure) (VString arrival) = Ok (of_Z n)
    /\ 0 <= n <= 1439
    /\ (minuteOfDay departure + n) mod 1440 = minuteOfDay arrival
    /\ (n = 0 <-> minuteOfDay arrival = minuteOfDay departure).
Proof.
  intros Vd Va.
  apply valid_inv in Vd as (Wd & Hd1 & Hd2), Va as (Wa & Ha1 & Ha2).
  pose proof (wellFormed_range departure Wd) as (Rd1 & Rd2 & _).
  pose proof (wellFormed_range arrival Wa) as (Ra1 & Ra2 & _).
  rewrite calculateDuration_wellFormed by assumption.
  unfold minuteOfDay in *.
  set (d := hourOf departure * 60 + minuteOf departure) in *.
  set (a := hourOf arrival * 60 + minuteOf arrival) in *.
  assert (0 <= d <= 1439) by (unfold d; lia).
  assert (0 <= a <= 1439) by (unfold a; lia).
  destruct (Z.ltb_spec (a - d) 0) as [L|G].
  - exists (a - d + 1440). split; [reflexivity|]. split; [lia|]. split; [|lia].
    replace (d + (a - d + 1440)) with (a + 1 * 1440) by lia.
    rewrite Z.mod_add by lia. apply Z.mod_small. lia.
  - exists (a - d). split; [reflexivity|]. split; [lia|]. split; [|lia].
    replace (d + (a - d)) with a by lia. apply Z.mod_small. lia.
Qed.

Lemma calculateDuration_valid_witness :
  (valid "23:00" = true /\ valid "02:00" = true)
  /\ exists n,
      DataService.calculateDuration (VString "23:00") (VString "02:00") = Ok (of_Z n)
      /\ 0 <= n <= 1439
      /\ (1380 + n) mod 1440 = 120
      /\ (n = 0 <-> 120 = 1380).
Proof.
  split; [split; reflexivity|].
  apply (calculateDuration_valid "23:00" "02:00"); reflexivity.
Defined.

(** X2.  On well-formed times [calculateDuration] adds the 1440 minutes of a
    day exactly when [isOvernightFlight] classifies the flight as
    overnight; otherwise it returns the plain difference. *)
Theorem calculateDuration_adds_a_day_when_overnight (departure arrival : string) :
  wellFormed departure = true -> wellFormed arrival = true ->
  (Engine.isOvernightFlight (VString departure) (VString arrival) = Ok true ->
   DataService.calculateDuration (VString departure) (VString arrival)
   = Ok (of_Z (minuteOfDay arrival - minuteOfDay departure + 1440)))
  /\ (Engine.isOvernightFlight (VString departure) (VString arrival) = Ok false ->
      DataService.calculateDuration (VString departure) (VString arrival)
      = Ok (of_Z (minuteOfDay arrival - minuteOfDay departure))).
Proof.
  intros Hd Ha.
  pose proof (wellFormed_range departure Hd) as (_ & _ & Rd).
  pose proof (wellFormed_range arrival Ha) as (_ & _ & Ra).
  rewrite calculateDuration_wellFormed by assumption.
  rewrite isOvernightFlight_strings, !timeToMinutes_wellFormed by assumption.
  cbn [bind]. rewrite lt_of_Z by (rewrite pow53; lia).
  split; intros E; apply Ok_inj in E.
  - apply Z.ltb_lt in E.
    destruct (Z.ltb_spec (minuteOfDay arrival - minuteOfDay departure) 0); [reflexivity|lia].
  - apply Z.ltb_ge in E.
    destruct (Z.ltb_spec (minuteOfDay arrival - minuteOfDay departure) 0); [lia|reflexivity].
Qed.

Lemma calculateDuration_adds_a_day_when_overnight_witness :
  (wellFormed "23:00" = true /\ wellFormed "02:00" = true
   /\ Engine.isOvernightFlight (VString "23:00") (VString "02:00") = Ok true)
  /\ DataService.calculateDuration (VString "23:00") (VString "02:00")
     = Ok (of_Z (120 - 1380 + 1440)).
Proof.
  split; [repeat split|].
  apply (calculateDuration_adds_a_day_when_overnight "23:00" "02:00"); reflexivity.
Defined.

(** X3.  [calculateDuration] corrects a negative difference once only: on
    well-formed times the result lies between -4599 and 6039, and it is
    negative exactly when the departure exceeds the arrival by more than
    1440 minutes (which needs an hour above 23 or a minute above 59). *)
Theorem calculateDuration_negative (departure arrival : string) :
  wellFormed departure = true -> wellFormed arrival = true ->
  exists n,
    DataService.calculateDuration (VString departure) (VString arrival) = Ok (of_Z n)
    /\ - 4599 <= n <= 6039
    /\ (n < 0 <-> minuteOfDay departure - minuteOfDay arrival > 1440).
Proof.
  intros Hd Ha.
  pose proof (wellFormed_range departure Hd) as (_ & _ & Rd).
  pose proof (wellFormed_range arrival Ha) as (_ & _ & Ra).
  rewrite calculateDuration_wellFormed by assumption.
  destruct (Z.ltb_spec (minuteOfDay arrival - minuteOfDay departure) 0) as [L|G];
    eexists; (split; [reflexivity|]); lia.
Qed.

Lemma calculateDuration_negative_witness :
  (wellFormed "99:99" = true /\ wellFormed "00:00" = true)
  /\ exists n,
      DataService.calculateDuration (VString "99:99") (VString "00:00") = Ok (of_Z n)
      /\ - 4599 <= n <= 6039
      /\ (n < 0 <-> 6039 - 0 > 1440).
Proof.
  split; [split; reflexivity|].
  apply (calculateDuration_negative "99:99" "00:00"); reflexivity.
Defined.

Lemma sub_nan_l y : sub NaN y = NaN.
Proof. reflexivity. Qed.

Lemma sub_nan_r x : sub x NaN = NaN.
Proof. destruct x; reflexivity. Qed.

Lemma calculateDuration_non_numeric d a :
  nonNumeric d = true \/ nonNumeric a = true ->
  DataService.calculateDuration (VString d) (VString a) = Ok NaN.
Proof.
  intros H. rewrite calculateDuration_strings.
  destruct H as [H|H]; rewrite (nonNumeric_NaN _ H).
  - cbn [bind]. rewrite timeToMinutes_string. cbn [bind]. cbv zeta.
    rewrite sub_nan_r. reflexivity.
  - rewrite timeToMinutes_string. cbn [bind]. cbv zeta. reflexivity.
Qed.

(** X4.  [calculateDuration] checks nothing: on strings with a non-numeric
    hour or minute it returns not-a-number (no day is added, the test
    [duration < 0] being false), and on an argument that is not a string it
    throws. *)
Theorem calculateDuration_malformed :
  (forall departure arrival : string,
      nonNumeric departure = true \/ nonNumeric arrival = true ->
      DataService.calculateDuration (VString departure) (VString arrival) = Ok NaN)
  /\ (forall departure arrival : value,
      is_string departure = false \/ is_string arrival = false ->
      exists msg, DataService.calculateDuration departure arrival = Throw msg).
Proof.
  split; [exact calculateDuration_non_numeric|].
  intros d a H. unfold DataService.calculateDuration.
  destruct d as [| |b|n|d]; try (eexists; reflexivity).
  destruct H as [H|H]; [discriminate H|].
  destruct a as [| |b|n|a]; try (eexists; reflexivity). discriminate H.
Qed.

Lemma calculateDuration_malformed_witness :
  (nonNumeric "soon" = true /\ is_string VUndefined = false)
  /\ DataService.calculateDuration (VString "soon") (VString "10:30") = Ok NaN
  /\ exists msg,
      DataService.calculateDuration VUndefined (VString "10:30") = Throw msg.
Proof.
  destruct calculateDuration_malformed as [H1 H2].
  split; [split; reflexivity|]. split.
  - apply (H1 "soon" "10:30"). left. reflexivity.
  - apply (H2 VUndefined (VString "10:30")). left. reflexivity.
Defined.

(* ================================================================== *)
(** * What the filter passes keep *)
(* ================================================================== *)

Lemma filter_as_list_filter {A} (p : A -> result bool) l l' :
  App.filter p l = Ok l' -> l' = List.filter (fun x => okTrue (p x)) l.
Proof.
  revert l'. induction l as [|x r IH]; intros l' H; simpl in H.
  - apply Ok_inj in H. subst. reflexivity.
  - destruct (p x) as [b|] eqn:Hx; [|discriminate]. cbn [bind] in H.
    destruct (App.filter p r) as [r'|]; [|discriminate]. cbn [bind] in H.
    apply Ok_inj in H. subst l'. simpl. rewrite Hx.
    rewrite (IH r' eq_refl). destruct b; reflexivity.
Qed.

Lemma list_filter_twice {A} (f g : A -> bool) l :
  List.filter g (List.filter f l) = List.filter (fun x => f x && g x) l.
Proof.
  induction l as [|x r IH]; [reflexivity|]. simpl.
  destruct (f x); simpl; [destruct (g x)|]; rewrite IH; reflexivity.
Qed.

Lemma filterResults_as_list_filter el m l l' :
  App.filterResults el m l = Ok l' -> l' = List.filter (kept el m) l.
Proof.
  unfold App.filterResults.
  rewrite filterDeparture_filter.
  destruct (App.filter _ l) as [l1|] eqn:E1; [|discriminate]. cbn [bind].
  rewrite filterArrival_filter.
  destruct (App.filter _ l1) as [l2|] eqn:E2; [|discriminate]. cbn [bind].
  rewrite filterUnited_filter. intros E3.
  apply filter_as_list_filter in E1, E2, E3. subst l1 l2 l'.
  rewrite !list_filter_twice. apply List.filter_ext.
  intros it. unfold kept. rewrite andb_assoc. reflexivity.
Qed.

Lemma isTimeInRange_on_string t s e anp :
  exists b, Engine.isTimeInRange (VString t) (VString s) (VString e) anp = Ok b.
Proof.
  unfold Engine.isTimeInRange.
  destruct (negb (truthy (VString t)) || negb (truthy (VString s))
            || negb (truthy (VString e))); [eexists; reflexivity|].
  rewrite !timeToMinutes_string. cbn [bind].
  match goal with |- context [if ?b then _ else _] => destruct b end;
    eexists; reflexivity.
Qed.

Lemma isArrivalTimeInRange_on_string d a s e :
  exists b,
    Engine.isArrivalTimeInRange (VString d) (VString a) (VString s) (VString e) = Ok b.
Proof.
  unfold Engine.isArrivalTimeInRange.
  destruct (negb (truthy (VString a)) || negb (truthy (VString s))
            || negb (truthy (VString e))); [eexists; reflexivity|].
  rewrite isOvernightFlight_strings, !timeToMinutes_string. cbn [bind].
  match goal with |- context [if ?b then _ else _] => destruct b end;
    apply isTimeInRange_on_string.
Qed.

Lemma typedTimes_callbacks el m it :
  typedTimes it = true ->
  (exists b, departureCallback (App.depTimeStart el) (App.depTimeEnd el) it = Ok b)
  /\ (exists b, arrivalCallback (App.arrTimeStart el) (App.arrTimeEnd el) it = Ok b)
  /\ (exists b, unitedCallback (App.unitedOnlyFilter el) m it = Ok b).
Proof.
  unfold typedTimes. intros H. apply andb_prop in H as [Hd Ha].
  destruct (App.departureTime it) as [| | | |d] eqn:Ed; try discriminate.
  split; [|split].
  - unfold departureCallback. rewrite Ed.
    destruct (_ && _); [apply isTimeInRange_on_string | eexists; reflexivity].
  - unfold arrivalCallback. rewrite Ed.
    destruct (_ && _); [|eexists; reflexivity].
    apply orb_prop in Ha as [Ha|Ha].
    + destruct (App.arrivalTime it) as [| | | |a]; try discriminate.
      apply isArrivalTimeInRange_on_string.
    + exists true. unfold Engine.isArrivalTimeInRange.
      rewrite (absent_falsy _ Ha). reflexivity.
  - unfold unitedCallback, App.unitedItem.
    destruct (App.unitedOnlyFilter el); [|eexists; reflexivity].
    destruct m; [eexists; reflexivity|].
    destruct (App.carrierCodes it); eexists; reflexivity.
Qed.

Lemma filter_never_throws {A} (p : A -> result bool) l :
  Forall (fun x => exists b, p x = Ok b) l -> exists l', App.filter p l = Ok l'.
Proof.
  induction 1 as [|x r [b Hx] _ [r' IH]]; [eexists; reflexivity|].
  simpl. rewrite Hx, IH. eexists. reflexivity.
Qed.

(** X5.  On records whose departure is a string and whose arrival is a
    string or absent, the three passes of [applyFilters] never throw, and
    they keep, in their order, exactly the records every pass accepts. *)
Theorem filterResults_total_on_typed_records (el : App.elements) (m : App.mode)
  (l : list App.item) :
  Forall (fun it => typedTimes it = true) l ->
  App.filterResults el m l = Ok (List.filter (kept el m) l).
Proof.
  intros H.
  assert (T : exists l', App.filterResults el m l = Ok l').
  { unfold App.filterResults.
    rewrite filterDeparture_filter.
    destruct (filter_never_throws
                (departureCallback (App.depTimeStart el) (App.depTimeEnd el)) l)
      as [l1 E1].
    { eapply Forall_impl; [|exact H]. intros it Hit.
      apply (typedTimes_callbacks el m it Hit). }
    rewrite E1. cbn [bind]. rewrite filterArrival_filter.
    assert (H1 : Forall (fun it => typedTimes it = true) l1)
      by (eapply filter_keeps; eassumption).
    destruct (filter_never_throws
                (arrivalCallback (App.arrTimeStart el) (App.arrTimeEnd el)) l1)
      as [l2 E2].
    { eapply Forall_impl; [|exact H1]. intros it Hit.
      apply (typedTimes_callbacks el m it Hit). }
    rewrite E2. cbn [bind]. rewrite filterUnited_filter.
    assert (H2 : Forall (fun it => typedTimes it = true) l2)
      by (eapply filter_keeps; eassumption).
    apply filter_never_throws.
    eapply Forall_impl; [|exact H2]. intros it Hit.
    apply (typedTimes_callbacks el m it Hit). }
  destruct T as [l' E]. rewrite E. f_equal.
  apply filterResults_as_list_filter. exact E.
Qed.

Lemma filterResults_total_on_typed_records_witness :
  let el := {| App.depTimeStart := ""; App.depTimeEnd := "";
               App.arrTimeStart := "00:00"; App.arrTimeEnd := "03:00";
               App.unitedOnlyFilter := false |} in
  let l := [flight "08:00" "10:30"; flight "23:00" "02:00"; flight "14:00" "13:55"] in
  Forall (fun it => typedTimes it = true) l
  /\ App.filterResults el App.schedules l = Ok [flight "23:00" "02:00"].
Proof.
  intros el l.
  assert (H : Forall (fun it => typedTimes it = true) l)
    by (repeat constructor).
  split; [exact H|].
  apply (filterResults_total_on_typed_records el App.schedules l H).
Defined.

Lemma filter_throws {A} (p : A -> result bool) l x msg :
  In x l -> p x = Throw msg -> exists msg', App.filter p l = Throw msg'.
Proof.
  intros Hin Hx. induction l as [|y r IH]; [contradiction|].
  simpl. destruct Hin as [->|Hin].
  - rewrite Hx. eexists. reflexivity.
  - destruct (p y) as [b|m]; [|eexists; reflexivity]. cbn [bind].
    destruct (IH Hin) as [m E]. rewrite E. eexists. reflexivity.
Qed.

Lemma isOvernightFlight_throws d a :
  is_string d = false -> exists msg, Engine.isOvernightFlight d a = Throw msg.
Proof.
  intros H. destruct d; try discriminate; eexists; reflexivity.
Qed.

(** X6.  With both arrival bounds set, one record that has an arrival but
    no string for its departure makes the whole arrival pass throw; the
    departure pass itself accepts a record whose departure is absent. *)
Theorem filterArrival_aborts_without_departure
  (start end_ : string) (l : list App.item) (it : App.item) :
  start <> "" -> end_ <> "" ->
  In it l ->
  is_string (App.departureTime it) = false ->
  truthy (App.arrivalTime it) = true ->
  (exists msg, App.filterArrival start end_ l = Throw msg)
  /\ (absent (App.departureTime it) = true ->
      Engine.isTimeInRange (App.departureTime it) (VString start) (VString end_) false
      = Ok true).
Proof.
  intros Hs He Hin Hd Ha. split.
  - destruct (isOvernightFlight_throws _ (App.arrivalTime it) Hd) as [msg Hm].
    assert (T : arrivalCallback start end_ it = Throw msg).
    { unfold arrivalCallback.
      destruct (String.eqb_spec start ""); [contradiction|].
      destruct (String.eqb_spec end_ ""); [contradiction|]. cbn [negb andb].
      unfold Engine.isArrivalTimeInRange.
      rewrite Ha, !truthy_nonempty by assumption. cbn [negb orb].
      rewrite Hm. reflexivity. }
    rewrite filterArrival_filter. eapply filter_throws; eassumption.
  - intros Hab. unfold Engine.isTimeInRange.
    rewrite (absent_falsy _ Hab). reflexivity.
Qed.

Lemma filterArrival_aborts_without_departure_witness :
  let it := {| App.departureTime := VUndefined; App.arrivalTime := VString "10:30";
               App.carrierCode := VString "UA"; App.carrierCodes := None |} in
  exists msg,
    App.filterArrival "06:00" "12:00" [flight "08:00" "10:30"; it] = Throw msg.
Proof.
  intros it.
  apply (filterArrival_aborts_without_departure "06:00" "12:00"
           [flight "08:00" "10:30"; it] it).
  - discriminate.
  - discriminate.
  - right. left. reflexivity.
  - reflexivity.
  - reflexivity.
Defined.

(* ================================================================== *)
(** * Components after the minutes *)
(* ================================================================== *)

Lemma wellFormed_split_suffix s x :
  wellFormed s = true ->
  exists hs ms,
    split_list ":" s = [hs; ms]
    /\ split_list ":" (s ++ String ":" x) = hs :: ms :: split_list ":" x.
Proof.
  intros H. apply wellFormed_inv in H as (h1 & h2 & m1 & m2 & -> & H1 & H2 & H3 & H4).
  exists (String h1 (String h2 "")), (String m1 (String m2 "")).
  unfold split_list. cbn [split append].
  rewrite (digit_not_colon h1), (digit_not_colon h2),
    (digit_not_colon m1), (digit_not_colon m2) by assumption.
  cbn [Ascii.eqb Bool.eqb]. destruct (split ":" x). split; reflexivity.
Qed.

(** X7.  Both [timeToMinutes] read the first two components only: a
    well-formed time followed by a colon and anything (seconds, say) converts
    as the time alone. *)
Theorem timeToMinutes_ignores_seconds (s x : string) :
  wellFormed s = true ->
  Engine.timeToMinutes (VString (s ++ String ":" x)) = Ok (of_Z (minuteOfDay s))
  /\ App.timeToMinutes (VString (s ++ String ":" x)) = Ok (of_Z (minuteOfDay s)).
Proof.
  intros H.
  destruct (wellFormed_split_suffix s x H) as (hs & ms & E1 & E2).
  assert (E : Engine.timeToMinutes (VString (s ++ String ":" x))
              = Engine.timeToMinutes (VString s)).
  { rewrite (timeToMinutes_components _ hs ms _ E2).
    rewrite (timeToMinutes_components _ hs ms _ E1). reflexivity. }
  assert (N : nonNumeric (s ++ String ":" x) = nonNumeric s).
  { unfold nonNumeric. rewrite E1, E2. reflexivity. }
  split.
  - rewrite E. apply timeToMinutes_wellFormed; assumption.
  - rewrite app_timeToMinutes_string.
    + rewrite N, wellFormed_numeric by assumption. rewrite E.
      apply timeToMinutes_wellFormed; assumption.
    + destruct s; [discriminate H|discriminate].
Qed.

Lemma timeToMinutes_ignores_seconds_witness :
  wellFormed "08:15" = true
  /\ Engine.timeToMinutes (VString "08:15:59") = Ok (of_Z 495)
  /\ App.timeToMinutes (VString "08:15:59") = Ok (of_Z 495).
Proof.
  split; [reflexivity|].
  apply (timeToMinutes_ignores_seconds "08:15" "59"). reflexivity.
Defined.

(* ================================================================== *)
(** * The departure sort *)
(* ================================================================== *)

Lemma sortKey_spec v :
  plainDeparture v = true ->
  App.timeToMinutes v = Ok (of_Z (sortKey v)) /\ 0 <= sortKey v <= 6039.
Proof.
  destruct v as [| |b|n|s].
  1-4: intros _; split; [|simpl; lia]; unfold App.timeToMinutes;
       cbn [is_string negb]; rewrite orb_true_r; reflexivity.
  cbn [plainDeparture sortKey]. intros H.
  destruct (wellFormed s) eqn:W.
  - pose proof (wellFormed_range s W) as (_ & _ & R). split; [|lia].
    rewrite app_timeToMinutes_string by (apply wellFormed_nonempty; assumption).
    rewrite wellFormed_numeric by assumption.
    apply timeToMinutes_wellFormed; assumption.
  - split; [|lia]. rewrite orb_false_r in H.
    destruct (String.eqb_spec s "") as [->|Hne]; [reflexivity|].
    cbn [orb] in H. rewrite app_timeToMinutes_string by assumption.
    rewrite H. reflexivity.
Qed.

Lemma compareDeparture_keys a b :
  plainDeparture a = true -> plainDeparture b = true ->
  App.compareDeparture a b = Ok (of_Z (sortKey a - sortKey b)).
Proof.
  intros Ha Hb.
  destruct (sortKey_spec a Ha) as [Ea Ra]. destruct (sortKey_spec b Hb) as [Eb Rb].
  unfold App.compareDeparture. rewrite Ea, Eb. cbn [bind].
  rewrite sub_of_Z by (rewrite pow53; lia). reflexivity.
Qed.

Lemma insert_by_key x l :
  plainItem x = true -> Forall (fun it => plainItem it = true) l ->
  Sorting.insert
    (fun a b => App.compareDeparture (App.departureTime a) (App.departureTime b)) x l
  = Ok (insertByKey x l).
Proof.
  intros Hx Hl. induction Hl as [|y r Hy _ IH]; [reflexivity|].
  cbn [Sorting.insert insertByKey].
  rewrite compareDeparture_keys by assumption. cbn [bind].
  destruct (sortKey_spec _ Hx) as [_ Rx]. destruct (sortKey_spec _ Hy) as [_ Ry].
  rewrite gt_of_Z_zero by (rewrite pow53; lia).
  unfold departureKey.
  replace (0 <? sortKey (App.departureTime x) - sortKey (App.departureTime y))
    with (sortKey (App.departureTime y) <? sortKey (App.departureTime x)).
  2:{ destruct (Z.ltb_spec (sortKey (App.departureTime y)) (sortKey (App.departureTime x)));
      destruct (Z.ltb_spec 0 (sortKey (App.departureTime x) - sortKey (App.departureTime y)));
      try reflexivity; lia. }
  destruct (_ <? _); [|reflexivity]. rewrite IH. reflexivity.
Qed.

Lemma insertByKey_perm x l : Permutation (x :: l) (insertByKey x l).
Proof.
  induction l as [|y r IH]; [reflexivity|]. simpl.
  destruct (departureKey y <? departureKey x); [|reflexivity].
  rewrite perm_swap. apply perm_skip. exact IH.
Qed.

Lemma sortByKey_perm l : Permutation l (sortByKey l).
Proof.
  induction l as [|x r IH]; [reflexivity|]. simpl.
  rewrite <- insertByKey_perm. apply perm_skip. exact IH.
Qed.

Lemma insertByKey_plain x l :
  plainItem x = true -> Forall (fun it => plainItem it = true) l ->
  Forall (fun it => plainItem it = true) (insertByKey x l).
Proof.
  intros Hx Hl. eapply Permutation_Forall; [apply insertByKey_perm|].
  constructor; assumption.
Qed.

Lemma sortByKey_plain l :
  Forall (fun it => plainItem it = true) l ->
  Forall (fun it => plainItem it = true) (sortByKey l).
Proof.
  intros Hl. eapply Permutation_Forall; [apply sortByKey_perm|]. assumption.
Qed.

Lemma sort_by_key l :
  Forall (fun it => plainItem it = true) l ->
  Sorting.sortByDeparture l = Ok (sortByKey l).
Proof.
  unfold Sorting.sortByDeparture.
  induction 1 as [|x r Hx Hr IH]; [reflexivity|].
  cbn [Sorting.sort sortByKey]. rewrite IH. cbn [bind].
  apply insert_by_key; [assumption|]. apply sortByKey_plain; assumption.
Qed.

Lemma insertByKey_sorted x l :
  StronglySorted keyLe l -> StronglySorted keyLe (insertByKey x l).
Proof.
  induction 1 as [|y r Hr IH Hy]; simpl.
  - constructor; constructor.
  - destruct (Z.ltb_spec (departureKey y) (departureKey x)) as [L|G].
    + constructor; [exact IH|].
      eapply Permutation_Forall; [apply insertByKey_perm|].
      constructor; [unfold keyLe; lia | exact Hy].
    + constructor; [constructor; assumption|].
      constructor; [exact G|].
      eapply Forall_impl; [|exact Hy]. unfold keyLe. intros; lia.
Qed.

Lemma sortByKey_sorted l : StronglySorted keyLe (sortByKey l).
Proof.
  induction l as [|x r IH]; [constructor|]. simpl.
  apply insertByKey_sorted. exact IH.
Qed.

Lemma insertByKey_stable k x l :
  List.filter (fun it => departureKey it =? k) (insertByKey x l)
  = List.filter (fun it => departureKey it =? k) (x :: l).
Proof.
  induction l as [|y r IH]; [reflexivity|]. cbn [insertByKey].
  destruct (Z.ltb_spec (departureKey y) (departureKey x)) as [L|G]; [|reflexivity].
  cbn [List.filter] in *. rewrite IH.
  destruct (Z.eqb_spec (departureKey y) k), (Z.eqb_spec (departureKey x) k);
    try reflexivity. lia.
Qed.

Lemma sortByKey_stable k l :
  List.filter (fun it => departureKey it =? k) (sortByKey l)
  = List.filter (fun it => departureKey it =? k) l.
Proof.
  induction l as [|x r IH]; [reflexivity|]. cbn [sortByKey].
  rewrite insertByKey_stable. cbn [List.filter]. rewrite IH. reflexivity.
Qed.

Lemma sortByKey_of_sorted l : StronglySorted keyLe l -> sortByKey l = l.
Proof.
  induction 1 as [|x r Hr IH Hx]; [reflexivity|]. cbn [sortByKey]. rewrite IH.
  destruct r as [|y r']; [reflexivity|]. cbn [insertByKey].
  inversion Hx as [|? ? Hxy _]; subst. unfold keyLe in Hxy.
  destruct (Z.ltb_spec (departureKey y) (departureKey x)); [lia|reflexivity].
Qed.

(** X8.  When every departure is a well-formed time, empty, not a string or
    non-numeric, the departure sort returns a permutation of the offers,
    ordered by minute-of-day with the malformed ones counted as 0, and
    stable: offers with the same key keep their order. *)
Theorem sortByDeparture_sorts (l : list App.item) :
  Forall (fun it => plainItem it = true) l ->
  exists l',
    Sorting.sortByDeparture l = Ok l'
    /\ Permutation l l'
    /\ StronglySorted keyLe l'
    /\ (forall k : Z,
           List.filter (fun it => departureKey it =? k) l'
           = List.filter (fun it => departureKey it =? k) l).
Proof.
  intros H. exists (sortByKey l). split; [apply sort_by_key; assumption|].
  split; [apply sortByKey_perm|]. split; [apply sortByKey_sorted|].
  intros k. apply sortByKey_stable.
Qed.

Lemma sortByDeparture_sorts_witness :
  let l := [flight "10:00" "11:00"; flight "08:00" "09:00"; flight "" "12:00";
            flight "08:00" "09:30"] in
  Forall (fun it => plainItem it = true) l
  /\ exists l',
      Sorting.sortByDeparture l = Ok l'
      /\ Permutation l l'
      /\ StronglySorted keyLe l'
      /\ (forall k : Z,
             List.filter (fun it => departureKey it =? k) l'
             = List.filter (fun it => departureKey it =? k) l).
Proof.
  intros l.
  assert (H : Forall (fun it => plainItem it = true) l) by (repeat constructor).
  split; [exact H|]. apply (sortByDeparture_sorts l H).
Defined.

(** X9.  On such offers, sorting by departure a second time changes
    nothing. *)
Theorem sortByDeparture_idempotent (l : list App.item) :
  Forall (fun it => plainItem it = true) l ->
  (l' <- Sorting.sortByDeparture l ;; Sorting.sortByDeparture l')
  = Sorting.sortByDeparture l.
Proof.
  intros H. rewrite sort_by_key by assumption. cbn [bind].
  rewrite sort_by_key by (apply sortByKey_plain; assumption).
  rewrite sortByKey_of_sorted by apply sortByKey_sorted. reflexivity.
Qed.

Lemma sortByDeparture_idempotent_witness :
  let l := [flight "10:00" "11:00"; flight "08:00" "09:00"; flight "" "12:00"] in
  Forall (fun it => plainItem it = true) l
  /\ (l' <- Sorting.sortByDeparture l ;; Sorting.sortByDeparture l')
     = Sorting.sortByDeparture l.
Proof.
  intros l.
  assert (H : Forall (fun it => plainItem it = true) l) by (repeat constructor).
  split; [exact H|]. apply (sortByDeparture_idempotent l H).
Defined.

(* ================================================================== *)
(** * Letter case and trimming *)
(* ================================================================== *)

Ltac each_char c := destruct c as [[] [] [] [] [] [] [] []].

Lemma lower_char_space c : is_space (Str.lower_char c) = is_space c.
Proof. each_char c; reflexivity. Qed.


Lemma upper_char_upper c : Str.toUpperCase (Str.upper_char c) = Str.upper_char c.
Proof. each_char c; reflexivity. Qed.

Lemma upper_char_sharp_s : Str.upper_char sharp_s = "SS".
Proof. reflexivity. Qed.

Lemma upper_char_head c x :
  is_space c = false -> headOk (Str.upper_char c ++ x) = true.
Proof. each_char c; intros H; try reflexivity; discriminate H. Qed.

Lemma upper_char_last c :
  is_space c = false -> lastOk (Str.upper_char c) = true.
Proof. each_char c; intros H; try reflexivity; discriminate H. Qed.

Lemma upper_char_nonempty c x : (Str.upper_char c ++ x)%string <> "".
Proof. each_char c; discriminate. Qed.

Lemma toUpperCase_app a b :
  Str.toUpperCase (a ++ b) = (Str.toUpperCase a ++ Str.toUpperCase b)%string.
Proof.
  induction a as [|c r IH]; [reflexivity|]. simpl. rewrite IH.
  induction (Str.upper_char c); simpl; congruence.
Qed.

Lemma toUpperCase_idempotent s : Str.toUpperCase (Str.toUpperCase s) = Str.toUpperCase s.
Proof.
  induction s as [|c r IH]; [reflexivity|]. simpl.
  rewrite toUpperCase_app, upper_char_upper, IH. reflexivity.
Qed.





(** ** Trimming *)

Lemma trim_left_head s : headOk (trim_left s) = true.
Proof.
  induction s as [|c r IH]; [reflexivity|]. simpl.
  destruct (is_space c) eqn:E; [exact IH|]. simpl. rewrite E. reflexivity.
Qed.

Lemma trim_right_last s : lastOk (trim_right s) = true.
Proof.
  induction s as [|c r IH]; [reflexivity|]. simpl.
  destruct (trim_right r) as [|d t] eqn:E.
  - destruct (is_space c) eqn:Ec; [reflexivity|]. simpl. rewrite Ec. reflexivity.
  - exact IH.
Qed.

Lemma trim_right_head s : headOk s = true -> headOk (trim_right s) = true.
Proof.
  destruct s as [|c r]; [reflexivity|]. simpl. intros H.
  destruct (trim_right r).
  - destruct (is_space c) eqn:E; [discriminate|]. simpl. rewrite E. reflexivity.
  - exact H.
Qed.

Lemma trim_left_fixed s : headOk s = true -> trim_left s = s.
Proof.
  destruct s as [|c r]; [reflexivity|]. simpl. intros H.
  destruct (is_space c); [discriminate|reflexivity].
Qed.

Lemma trim_right_fixed s : lastOk s = true -> trim_right s = s.
Proof.
  induction s as [|c r IH]; [reflexivity|]. intros H.
  destruct r as [|d t].
  - simpl in *. destruct (is_space c); [discriminate|reflexivity].
  - change (lastOk (String c (String d t))) with (lastOk (String d t)) in H.
    cbn [trim_right]. cbn [trim_right] in IH. rewrite IH by assumption. reflexivity.
Qed.

Lemma trim_fixed s : headOk s = true -> lastOk s = true -> trim s = s.
Proof.
  intros H L. unfold trim. rewrite trim_left_fixed by assumption.
  apply trim_right_fixed. assumption.
Qed.

Lemma trim_shape s : headOk (trim s) = true /\ lastOk (trim s) = true.
Proof.
  unfold trim. split.
  - apply trim_right_head. apply trim_left_head.
  - apply trim_right_last.
Qed.

Lemma toUpperCase_head s : headOk s = true -> headOk (Str.toUpperCase s) = true.
Proof.
  destruct s as [|c r]; [reflexivity|]. simpl. intros H.
  apply upper_char_head. destruct (is_space c); [discriminate|reflexivity].
Qed.

Lemma lastOk_app a b : b <> "" -> lastOk (a ++ b) = lastOk b.
Proof.
  intros Hb. induction a as [|c r IH]; [reflexivity|]. simpl append.
  destruct (r ++ b)%string eqn:E.
  - destruct r; simpl in E; [contradiction|discriminate].
  - exact IH.
Qed.

Lemma toUpperCase_last s : lastOk s = true -> lastOk (Str.toUpperCase s) = true.
Proof.
  induction s as [|c r IH]; [reflexivity|]. intros H.
  destruct r as [|d t].
  - simpl in *. rewrite append_nil_r. apply upper_char_last.
    destruct (is_space c); [discriminate|reflexivity].
  - change (lastOk (String c (String d t))) with (lastOk (String d t)) in H.
    cbn [Str.toUpperCase]. cbn [Str.toUpperCase] in IH.
    rewrite lastOk_app by apply upper_char_nonempty. apply IH. exact H.
Qed.

(** An upper-cased trimmed string is its own normal form. *)
Lemma normal_form_fixed s :
  Str.toUpperCase (trim (Str.toUpperCase (trim s))) = Str.toUpperCase (trim s).
Proof.
  destruct (trim_shape s) as [H L].
  rewrite trim_fixed.
  - apply toUpperCase_idempotent.
  - apply toUpperCase_head. exact H.
  - apply toUpperCase_last. exact L.
Qed.




Lemma trim_all_space s : all_space s = true -> trim s = "".
Proof.
  intros H. unfold trim.
  assert (E : trim_left s = "").
  { induction s as [|c r IH]; [reflexivity|]. simpl in *.
    apply andb_prop in H as [Hc Hr]. rewrite Hc. apply IH. exact Hr. }
  rewrite E. reflexivity.
Qed.

Lemma toLowerCase_all_space s : all_space (Str.toLowerCase s) = all_space s.
Proof.
  induction s as [|c r IH]; [reflexivity|]. simpl.
  rewrite lower_char_space, IH. reflexivity.
Qed.


Lemma prefix_empty s : String.prefix "" s = true.
Proof. destruct s; reflexivity. Qed.


Lemma includes_empty s : Str.includes s "" = true.
Proof. destruct s; reflexivity. Qed.

(* ================================================================== *)
(** * The airport table *)
(* ================================================================== *)

Lemma table_keys : Forall (fun e => keyOk e = true) Airports.AIRPORTS.
Proof. apply Forall_forall. apply forallb_forall. vm_compute. reflexivity. Qed.

Lemma table_key_of k a :
  In (k, a) Airports.AIRPORTS ->
  Airports.iata a = k /\ String.length k = 3%nat
  /\ Str.toUpperCase (trim k) = k /\ has_SS k = false.
Proof.
  intros H. pose proof table_keys as T. rewrite Forall_forall in T.
  specialize (T _ H). unfold keyOk in T.
  apply andb_prop in T as [T T4]. apply andb_prop in T as [T T3].
  apply andb_prop in T as [T1 T2].
  apply String.eqb_eq in T1, T3. apply Nat.eqb_eq in T2.
  apply negb_true_iff in T4. auto.
Qed.

Lemma table_codes_distinct : NoDup Airports.getAllAirportCodes.
Proof.
  pose proof (NoDup_nodup string_dec Airports.getAllAirportCodes) as H.
  vm_compute in H. exact H.
Qed.

Lemma lookup_In code t a : Airports.lookup code t = Some a -> In (code, a) t.
Proof.
  induction t as [|[k b] r IH]; [discriminate|]. simpl.
  destruct (String.eqb_spec k code) as [->|Hne].
  - intros E. injection E as ->. left. reflexivity.
  - intros E. right. apply IH. exact E.
Qed.

Lemma In_lookup code t a :
  NoDup (map fst t) -> In (code, a) t -> Airports.lookup code t = Some a.
Proof.
  induction t as [|[k b] r IH]; [contradiction|]. simpl.
  intros N H. inversion N as [|? ? Hk Hr]; subst.
  destruct H as [H|H].
  - injection H as -> ->. rewrite String.eqb_refl. reflexivity.
  - destruct (String.eqb_spec k code) as [->|Hne].
    + exfalso. apply Hk. apply (in_map fst) in H. exact H.
    + apply IH; assumption.
Qed.

Lemma getAirport_string s :
  Airports.getAirport (VString s)
  = Airports.lookup (Str.toUpperCase (trim s)) Airports.AIRPORTS.
Proof.
  unfold Airports.getAirport. cbn [truthy is_string negb orb].
  destruct (String.eqb_spec s "") as [->|Hne]; reflexivity.
Qed.

Lemma getAirport_not_string v : is_string v = false -> Airports.getAirport v = None.
Proof.
  intros H. unfold Airports.getAirport. rewrite H. rewrite orb_true_r. reflexivity.
Qed.

(** X10.  [getAirport] returns an airport exactly when its argument is a
    string whose trimmed upper-case form is the [iata] code of that airport
    of the table. *)
Theorem getAirport_found (v : value) (a : Airports.airport) :
  Airports.getAirport v = Some a
  <-> exists s, v = VString s
                /\ In a (map snd Airports.AIRPORTS)
                /\ Airports.iata a = Str.toUpperCase (trim s).
Proof.
  split.
  - intros H. destruct v as [| |b|n|s];
      try (rewrite getAirport_not_string in H by reflexivity; discriminate H).
    exists s. split; [reflexivity|].
    rewrite getAirport_string in H. apply lookup_In in H.
    split.
    + apply (in_map snd) in H. exact H.
    + apply table_key_of in H. tauto.
  - intros (s & -> & Hin & Hi). rewrite getAirport_string.
    apply in_map_iff in Hin as ([k b] & E & Hin). simpl in E. subst b.
    pose proof (table_key_of k a Hin) as (Hk & _).
    apply In_lookup; [exact table_codes_distinct|]. congruence.
Qed.

(** X11.  Trimming and upper-casing twice is trimming and upper-casing once:
    [getAirport] and [isValidAirport] answer on the normalized code what
    they answer on the string as typed. *)
Theorem getAirport_of_normal_form (s : string) :
  Airports.getAirport (VString (Str.toUpperCase (trim s)))
  = Airports.getAirport (VString s)
  /\ Airports.isValidAirport (VString (Str.toUpperCase (trim s)))
     = Airports.isValidAirport (VString s).
Proof.
  assert (E : Airports.getAirport (VString (Str.toUpperCase (trim s)))
              = Airports.getAirport (VString s)).
  { rewrite !getAirport_string, normal_form_fixed. reflexivity. }
  split; [exact E|]. unfold Airports.isValidAirport. rewrite E. reflexivity.
Qed.

(** X12.  [getAllAirportCodes] lists 25 distinct codes, and each of them is
    found by [getAirport] under itself, with its own code as [iata], and is
    displayed as code, city and state. *)
Theorem all_codes_are_found :
  NoDup Airports.getAllAirportCodes
  /\ List.length Airports.getAllAirportCodes = 25%nat
  /\ (forall code,
         In code Airports.getAllAirportCodes ->
         exists a, Airports.getAirport (VString code) = Some a
                   /\ Airports.iata a = code
                   /\ Airports.formatAirportDisplay (VString code)
                      = VString (code ++ " - " ++ Airports.city a ++ ", "
                                 ++ Airports.state a)).
Proof.
  split; [exact table_codes_distinct|]. split; [reflexivity|].
  intros code H. unfold Airports.getAllAirportCodes in H.
  apply in_map_iff in H as ([k a] & E & Hin). simpl in E. subst k.
  pose proof (table_key_of code a Hin) as (Hi & _ & Hn & _).
  assert (G : Airports.getAirport (VString code) = Some a).
  { rewrite getAirport_string, Hn. apply In_lookup; [exact table_codes_distinct|exact Hin]. }
  exists a. split; [exact G|]. split; [exact Hi|].
  unfold Airports.formatAirportDisplay. rewrite G, Hi. reflexivity.
Qed.

Lemma all_codes_are_found_witness :
  In "DEN" Airports.getAllAirportCodes
  /\ exists a, Airports.getAirport (VString "DEN") = Some a
               /\ Airports.iata a = "DEN"
               /\ Airports.formatAirportDisplay (VString "DEN")
                  = VString ("DEN" ++ " - " ++ Airports.city a ++ ", "
                             ++ Airports.state a).
Proof.
  assert (H : In "DEN" Airports.getAllAirportCodes) by (vm_compute; tauto).
  split; [exact H|].
  destruct all_codes_are_found as (_ & _ & F). apply (F "DEN" H).
Defined.

Lemma list_filter_all {A} (f : A -> bool) l :
  (forall x, In x l -> f x = true) -> List.filter f l = l.
Proof.
  induction l as [|x r IH]; [reflexivity|]. intros H. simpl.
  rewrite (H x (or_introl eq_refl)). f_equal. apply IH.
  intros y Hy. apply H. right. exact Hy.
Qed.

Lemma matches_empty e : Airports.matches "" e = true.
Proof. destruct e as [k a]. unfold Airports.matches. rewrite includes_empty. reflexivity. Qed.

(** X13.  [searchAirports] returns nothing for a falsy or non-string query,
    and the whole table, in its order, for a query of white space only. *)
Theorem searchAirports_edges :
  (forall query : value,
      truthy query = false \/ is_string query = false ->
      Airports.searchAirports query = [])
  /\ (forall s : string,
      s <> "" -> all_space s = true ->
      Airports.searchAirports (VString s) = map snd Airports.AIRPORTS).
Proof.
  split.
  - intros q H. unfold Airports.searchAirports.
    destruct H as [H|H]; rewrite H; rewrite ?orb_true_r; reflexivity.
  - intros s Hne Hsp. unfold Airports.searchAirports.
    rewrite truthy_nonempty by assumption. cbn [negb orb is_string].
    rewrite trim_all_space by (rewrite toLowerCase_all_space; assumption).
    apply f_equal. apply list_filter_all. intros e _. apply matches_empty.
Qed.

Lemma searchAirports_edges_witness :
  (truthy (VString "") = false /\ " " <> "" /\ all_space " " = true)
  /\ Airports.searchAirports (VString "") = []
  /\ List.length (Airports.searchAirports (VString " ")) = 25%nat.
Proof.
  destruct searchAirports_edges as [H1 H2].
  assert (N : " " <> "") by discriminate.
  split; [split; [reflexivity | split; [exact N | reflexivity]]|]. split.
  - apply H1. left. reflexivity.
  - rewrite (H2 " " N eq_refl). reflexivity.
Defined.




(* ================================================================== *)
(** * The airport checks of a search *)
(* ================================================================== *)

Lemma isValidAirport_code code :
  Airports.isValidAirport (VString code) = true ->
  Str.toUpperCase (trim code) = code ->
  In code Airports.getAllAirportCodes.
Proof.
  unfold Airports.isValidAirport.
  destruct (Airports.getAirport (VString code)) as [a|] eqn:G; [|discriminate].
  intros _ E. rewrite getAirport_string, E in G. apply lookup_In in G.
  apply (in_map fst) in G. exact G.
Qed.

(** X15.  When the airport checks of [handleSearch] let a search through,
    the normalized origin is a code of the table, and the normalized
    destination is either empty, in schedules mode only, or a code of the
    table other than the origin. *)
Theorem checkAirports_passed (currentMode : App.mode) (originValue destinationValue : string) :
  Search.checkAirports currentMode originValue destinationValue = None ->
  let origin := Str.toUpperCase (trim originValue) in
  let destination := Str.toUpperCase (trim destinationValue) in
  In origin Airports.getAllAirportCodes
  /\ (destination = "" /\ currentMode = App.schedules
      \/ In destination Airports.getAllAirportCodes /\ destination <> origin).
Proof.
  unfold Search.checkAirports. cbv zeta.
  set (origin := Str.toUpperCase (trim originValue)).
  set (destination := Str.toUpperCase (trim destinationValue)).
  destruct (String.eqb_spec origin "") as [|Ho]; [discriminate|].
  destruct (Nat.eqb (String.length origin) 3); [|discriminate]. cbn [negb].
  destruct (Airports.isValidAirport (VString origin)) eqn:Vo; [|discriminate].
  cbn [negb].
  assert (Io : In origin Airports.getAllAirportCodes).
  { apply isValidAirport_code; [exact Vo|]. apply normal_form_fixed. }
  destruct (String.eqb_spec destination "") as [Ed|Hd].
  - cbn [negb andb]. rewrite andb_true_r.
    destruct currentMode; [|discriminate]. intros _.
    split; [exact Io|]. left. split; [exact Ed|reflexivity].
  - cbn [negb andb]. rewrite andb_false_r.
    destruct (Nat.eqb (String.length destination) 3); [|discriminate]. cbn [negb].
    destruct (Airports.isValidAirport (VString destination)) eqn:Vd; [|discriminate].
    cbn [negb].
    destruct (String.eqb_spec origin destination) as [|Hod]; [discriminate|].
    intros _. split; [exact Io|]. right. split.
    + apply isValidAirport_code; [exact Vd|]. apply normal_form_fixed.
    + congruence.
Qed.

Lemma checkAirports_passed_witness :
  Search.checkAirports App.offers " sfo" "Ord " = None
  /\ In "SFO" Airports.getAllAirportCodes
  /\ (In "ORD" Airports.getAllAirportCodes /\ "ORD" <> "SFO").
Proof.
  split; [reflexivity|].
  destruct (checkAirports_passed App.offers " sfo" "Ord " eq_refl) as [H1 [[H2 _]|H2]].
  - discriminate H2.
  - split; [exact H1|exact H2].
Defined.

(* ================================================================== *)
(** * Durations on a card *)
(* ================================================================== *)

Lemma same_number_eq x y : same_number x y = true -> x = y.
Proof.
  destruct x as [a|a| |a m e], y as [b|b| |b n f]; try discriminate; simpl; intros H.
  - apply Bool.eqb_prop in H. congruence.
  - apply Bool.eqb_prop in H. congruence.
  - reflexivity.
  - apply andb_prop in H as [H He]. apply andb_prop in H as [Hs Hm].
    apply Bool.eqb_prop in Hs. apply Pos.eqb_eq in Hm. apply Z.eqb_eq in He.
    congruence.
Qed.

Lemma holds_from_spec fuel start f :
  holds_from fuel start f = true ->
  forall n, start <= n < start + Z.of_nat fuel -> f n = true.
Proof.
  revert start. induction fuel as [|k IH]; intros start H n Hn.
  - simpl in Hn. lia.
  - cbn [holds_from] in H. apply andb_prop in H as [H0 H1].
    destruct (Z.eq_dec n start) as [->|Hne]; [exact H0|].
    apply (IH (start + 1) H1). lia.
Qed.

Lemma parts_checked : holds_from (Z.to_nat 10080) 1 partsExact = true.
Proof. vm_compute. reflexivity. Qed.

Lemma duration_parts n :
  1 <= n <= 10080 ->
  Format.floor (Format.div (of_Z n) (of_Z 60)) = of_Z (n / 60)
  /\ Format.rem (of_Z n) (of_Z 60) = of_Z (n mod 60).
Proof.
  intros H.
  pose proof (holds_from_spec _ _ _ parts_checked n) as P.
  rewrite Z2Nat.id in P by lia. specialize (P ltac:(lia)).
  unfold partsExact in P. apply andb_prop in P as [P1 P2].
  split; apply same_number_eq; assumption.
Qed.

Lemma is_zero_of_Z z : - 2 ^ 53 < z < 2 ^ 53 -> is_zero (of_Z z) = (z =? 0).
Proof.
  intros H. destruct z as [|p|p]; [reflexivity| |].
  - rewrite of_Z_pos by lia. reflexivity.
  - rewrite of_Z_neg by lia. reflexivity.
Qed.

Section DurationText.

Variable toString : number -> string.

(** The conversion writes a whole number below [2 ^ 53] in decimal digits,
    as the language does. *)
Hypothesis toString_whole :
  forall z, 0 <= z < 2 ^ 53 -> toString (of_Z z) = decimal z.

(** X16.  For a whole number of minutes from 1 to 10080 (a week),
    [formatDuration] writes the hours and the minutes that add up to it,
    leaving out the part that is 0: minutes alone below an hour, hours alone
    on a full hour. *)
Theorem formatDuration_whole_minutes (n : Z) :
  1 <= n <= 10080 ->
  Format.formatDuration toString (VNumber (of_Z n))
  = if n / 60 =? 0 then decimal (n mod 60) ++ "m"
    else if n mod 60 =? 0 then decimal (n / 60) ++ "h"
    else decimal (n / 60) ++ "h " ++ decimal (n mod 60) ++ "m".
Proof.
  intros H. destruct (duration_parts n H) as [Eh Em].
  assert (Hq : 0 <= n / 60 <= 168).
  { split; [apply Z.div_pos; lia|]. apply Z.div_le_upper_bound; lia. }
  assert (Hr : 0 <= n mod 60 < 60) by (apply Z.mod_pos_bound; lia).
  unfold Format.formatDuration, isNaN. cbn [ToNumber truthy].
  rewrite of_Z_not_nan, is_zero_of_Z by (rewrite pow53; lia).
  replace (n =? 0) with false by (symmetry; apply Z.eqb_neq; lia).
  cbn [negb orb]. cbv zeta. rewrite Eh, Em.
  rewrite !is_zero_of_Z by (rewrite pow53; lia).
  rewrite !toString_whole by (rewrite pow53; lia).
  reflexivity.
Qed.

End DurationText.

Lemma whole_of_Z z : 0 <= z < 2 ^ 53 -> whole (of_Z z) = Some z.
Proof.
  intros H. destruct z as [|p|p]; [reflexivity| |lia].
  rewrite of_Z_pos by lia. unfold canon, whole.
  assert (Hb : bitlen p <= 53) by (apply bitlen_le_53; lia).
  pose proof (bitlen_pos p) as Hp.
  rewrite canon_mantissa by assumption.
  destruct (Z.leb_spec 0 (bitlen p - 53)) as [L|G].
  - replace (bitlen p - 53) with 0 by lia.
    replace (53 - bitlen p) with 0 by lia. simpl. f_equal. lia.
  - replace (- (bitlen p - 53)) with (53 - bitlen p) by lia.
    assert (0 < 2 ^ (53 - bitlen p)) by (apply Z.pow_pos_nonneg; lia).
    rewrite Z.mod_mul by lia. cbn [Z.eqb]. rewrite Z.div_mul by lia. reflexivity.
Qed.

Lemma wholeText_whole z : 0 <= z < 2 ^ 53 -> wholeText (of_Z z) = decimal z.
Proof. intros H. unfold wholeText. rewrite whole_of_Z by assumption. reflexivity. Qed.

Lemma formatDuration_whole_minutes_witness :
  1 <= 135 <= 10080
  /\ Format.formatDuration wholeText (VNumber (of_Z 135)) = "2h 15m".
Proof.
  split; [lia|].
  apply (formatDuration_whole_minutes wholeText wholeText_whole 135). lia.
Defined.


